(** * interactions-python: slash-command glue for a discord.py bot

    A shallow embedding of [discord/ext/interactions/models.py] and
    [discord/ext/interactions/fastapi_router.py].

    Python values that travel through the code (schemas, reply payloads,
    decoded JSON bodies) are embedded as the inductive [pyval]; a [dict] is
    an insertion-ordered association list.  Exceptions are values of type
    [exn], carried by [result].  Code that talks to the network, reads the
    clock or mutates a dictionary shared with its caller runs in the monad
    [M], a state-and-exception monad over [world]. *)

From Stdlib Require Import ZArith String Ascii List Lia Bool DecimalString.
From Stdlib.Strings Require Byte.
From stdpp Require Import base tactics option list.
Import ListNotations.
Local Open Scope string_scope.
Local Open Scope Z_scope.

Set Warnings "-register-all".

(** ** Python values *)

Inductive pyval : Type :=
| VNone
| VBool (b : bool)
| VInt (z : Z)
| VStr (s : string)
| VList (l : list pyval)
| VDict (kvs : list (string * pyval)).

Definition pydict : Type := list (string * pyval).

Inductive exn : Type :=
| TypeError (msg : string)
| KeyError (key : string)
| AttributeError (msg : string)
| ValueError (msg : string)
| IndexError (msg : string)
| NameError (name : string)
| BadSignatureError
| NotImplementedError
| InteractionsError (msg : string)
| ExpiredToken
| HTTPException (status : Z) (body : pyval)
| SyntaxError (msg : string).

Inductive result (A : Type) : Type :=
| Ok (a : A)
| Raise (e : exn).
Arguments Ok {A} a.
Arguments Raise {A} e.

Definition rbind {A B} (r : result A) (k : A -> result B) : result B :=
  match r with Ok a => k a | Raise e => Raise e end.

Notation "x <~ r ;; k" := (rbind r (fun x => k))
  (at level 100, r at next level, right associativity).

(** *** Dictionaries *)

Module Dict.

(** [d.get(k)] *)
Fixpoint get (k : string) (d : pydict) : option pyval :=
  match d with
  | [] => None
  | (k', v) :: d' => if String.eqb k k' then Some v else get k d'
  end.

(** the dictionary without key [k] *)
Fixpoint remove (k : string) (d : pydict) : pydict :=
  match d with
  | [] => []
  | (k', v) :: d' =>
      if String.eqb k k' then remove k d' else (k', v) :: remove k d'
  end.

(** [d[k] = v]: an existing key keeps its place, a new one goes last *)
Fixpoint set (k : string) (v : pyval) (d : pydict) : pydict :=
  match d with
  | [] => [(k, v)]
  | (k', v') :: d' =>
      if String.eqb k k' then (k, v) :: d' else (k', v') :: set k v d'
  end.

(** [d.pop(k, default)]: the value and the dictionary that is left *)
Definition pop (k : string) (default : pyval) (d : pydict) : pyval * pydict :=
  (match get k d with Some v => v | None => default end, remove k d).

(** [k in d] *)
Definition mem (k : string) (d : pydict) : bool :=
  match get k d with Some _ => true | None => false end.

Definition keys (d : pydict) : list string := map fst d.

End Dict.

(** *** Built-in operations on values *)

(** [bool(v)] *)
Definition truthy (v : pyval) : bool :=
  match v with
  | VNone => false
  | VBool b => b
  | VInt z => negb (z =? 0)
  | VStr s => negb (String.eqb s "")
  | VList l => match l with [] => false | _ => true end
  | VDict kvs => match kvs with [] => false | _ => true end
  end.

(** A [str] is kept as the sequence of its UTF-8 bytes.  A byte of the
    form 10xxxxxx continues the character that was begun before it. *)
Definition is_continuation (c : ascii) : bool :=
  let n := N_of_ascii c in ((128 <=? n) && (n <? 192))%N.

(** The characters of a [str], each one with its continuation bytes. *)
Fixpoint utf8_chars (s : string) : list string :=
  match s with
  | EmptyString => []
  | String c rest =>
      let tail := utf8_chars rest in
      match rest with
      | String c' _ =>
          if is_continuation c' then
            match tail with
            | ch :: tail' => String c ch :: tail'
            | [] => [String c EmptyString]
            end
          else String c EmptyString :: tail
      | EmptyString => [String c EmptyString]
      end
  end.

(** [len(s)] for a [str]: the number of its characters. *)
Definition str_len (s : string) : nat := List.length (utf8_chars s).

(** [len(v)] *)
Definition py_len (v : pyval) : result nat :=
  match v with
  | VStr s => Ok (str_len s)
  | VList l => Ok (List.length l)
  | VDict kvs => Ok (List.length kvs)
  | VNone => Raise (TypeError "object of type 'NoneType' has no len()")
  | VBool _ => Raise (TypeError "object of type 'bool' has no len()")
  | VInt _ => Raise (TypeError "object of type 'int' has no len()")
  end.

(** [v[k]] for a string subscript [k] *)
Definition py_getitem (v : pyval) (k : string) : result pyval :=
  match v with
  | VDict kvs =>
      match Dict.get k kvs with Some x => Ok x | None => Raise (KeyError k) end
  | VStr _ => Raise (TypeError "string indices must be integers")
  | VList _ => Raise (TypeError "list indices must be integers or slices, not str")
  | _ => Raise (TypeError "object is not subscriptable")
  end.

(** [for x in v] *)
Definition py_iter (v : pyval) : result (list pyval) :=
  match v with
  | VList l => Ok l
  | VDict kvs => Ok (map (fun kv => VStr (fst kv)) kvs)
  | VStr s => Ok (map VStr (utf8_chars s))
  | _ => Raise (TypeError "object is not iterable")
  end.

(** [v == 1]: an [int] compares by value and [True == 1] holds *)
Definition py_eq_int (v : pyval) (n : Z) : bool :=
  match v with
  | VInt z => z =? n
  | VBool b => (if b then 1 else 0) =? n
  | _ => false
  end.

(** [str(n)] for an [int] *)
Definition str_of_int (n : Z) : string := NilZero.string_of_int (Z.to_int n).

(** The parts of the Python standard library the code calls and that are
    kept abstract: [str] on arbitrary objects, [textwrap.shorten] and
    [json.loads]. *)
Class PyBuiltins : Type := {
  py_str : pyval -> string;
  shorten : string -> nat -> string;
  loads : list Byte.byte -> result pyval
}.

(** *** Strings and bytes *)

Definition bytes : Type := list Byte.byte.

(** [s.encode()]: the UTF-8 bytes the string is kept as. *)
Definition encode (s : string) : bytes := list_byte_of_string s.

(** The double-quote character, for messages that quote a value. *)
Definition dq : string := String "034"%char EmptyString.

Definition hex_digit (c : ascii) : option N :=
  let n := N_of_ascii c in
  if ((48 <=? n) && (n <=? 57))%N then Some (n - 48)%N
  else if ((97 <=? n) && (n <=? 102))%N then Some (n - 87)%N
  else if ((65 <=? n) && (n <=? 70))%N then Some (n - 55)%N
  else None.

Definition is_ascii_space (c : ascii) : bool :=
  let n := N_of_ascii c in
  ((n =? 32) || ((9 <=? n) && (n <=? 13)))%N.

Definition byte_of_nibbles (hi lo : N) : Byte.byte :=
  match Byte.of_N (16 * hi + lo) with Some b => b | None => Byte.x00 end.

Definition fromhex_error : exn :=
  ValueError "non-hexadecimal number found in fromhex() arg".

(** [bytes.fromhex(s)]: pairs of hexadecimal digits, white space allowed
    between pairs, [ValueError] on anything else. *)
Fixpoint fromhex (s : string) : result bytes :=
  match s with
  | EmptyString => Ok []
  | String c rest =>
      if is_ascii_space c then fromhex rest
      else
        match hex_digit c, rest with
        | Some hi, String c' rest' =>
            match hex_digit c' with
            | Some lo => tl <~ fromhex rest' ;; Ok (byte_of_nibbles hi lo :: tl)
            | None => Raise fromhex_error
            end
        | _, _ => Raise fromhex_error
        end
  end.

(** [template.format(k1=v1, ...)] for the templates this package writes:
    literal text, doubled braces and replacement fields that are plain
    keyword names.  [field] is [Some f] while a replacement field is being
    read.  Conversions, format specifications and attribute or index
    look-ups inside a field are not part of the model. *)
Fixpoint format_named (template : string) (field : option string)
    (kwargs : list (string * string)) : result string :=
  match template with
  | EmptyString =>
      match field with
      | None => Ok EmptyString
      | Some _ => Raise (ValueError "expected '}' before end of string")
      end
  | String c rest =>
      match field with
      | Some f =>
          if Ascii.eqb c "}" then
            if String.eqb f "" then
              Raise (IndexError "Replacement index 0 out of range for positional args tuple")
            else
              match List.find (fun kv => String.eqb f (fst kv)) kwargs with
              | Some kv => tl <~ format_named rest None kwargs ;; Ok (snd kv ++ tl)
              | None => Raise (KeyError f)
              end
          else format_named rest (Some (f ++ String c EmptyString)) kwargs
      | None =>
          if Ascii.eqb c "{" then
            match rest with
            | String "{" rest' =>
                tl <~ format_named rest' None kwargs ;; Ok (String "{" tl)
            | _ => format_named rest (Some EmptyString) kwargs
            end
          else if Ascii.eqb c "}" then
            match rest with
            | String "}" rest' =>
                tl <~ format_named rest' None kwargs ;; Ok (String "}" tl)
            | _ => Raise (ValueError "Single '}' encountered in format string")
            end
          else tl <~ format_named rest None kwargs ;; Ok (String c tl)
      end
  end.

(** ** The world outside the interpreter: clock, network, shared objects *)

(** The serialised text [json.dumps(d, ensure_ascii=True)], kept as the
    document it denotes. *)
Inductive json_text : Type := dumps (d : pyval).

Definition to_json (d : pydict) : json_text := dumps (VDict d).

Record request : Type := {
  method : string;
  url : string;
  data : option json_text;
  headers : list (string * string)
}.

(** What the platform sends back; [json] is the decoded body, which the
    platform always sends as JSON. *)
Record response : Type := {
  status : Z;
  json : pyval
}.

(** The platform: its answer to a request, given the requests it has
    already received. *)
Class Platform : Type := {
  server : list request -> request -> response
}.

(** A reference to a dictionary object shared between caller and callee. *)
Definition loc : Type := nat.

(** [clock] is [datetime.utcnow()] in microseconds; [sent] the HTTP requests
    issued so far, oldest first; [heap] the dictionaries reachable through
    references and [next] the first unused reference; [dispatched] the
    events handed to [bot.dispatch]. *)
Record world : Type := {
  clock : Z;
  sent : list request;
  heap : loc -> pydict;
  next : loc;
  dispatched : list (string * pyval)
}.

Definition M (A : Type) : Type := world -> result A * world.

Definition ret {A} (a : A) : M A := fun w => (Ok a, w).
Definition raise {A} (e : exn) : M A := fun w => (Raise e, w).
Definition bind {A B} (m : M A) (k : A -> M B) : M B :=
  fun w => match m w with
           | (Ok a, w') => k a w'
           | (Raise e, w') => (Raise e, w')
           end.
Definition lift {A} (r : result A) : M A := fun w => (r, w).

Notation "x <- m ;; k" := (bind m (fun x => k))
  (at level 100, m at next level, right associativity).

Definition utcnow : M Z := fun w => (Ok (clock w), w).

Definition with_sent (w : world) (l : list request) : world :=
  {| clock := clock w; sent := l; heap := heap w; next := next w;
     dispatched := dispatched w |}.

Definition with_heap (w : world) (h : loc -> pydict) (n : loc) : world :=
  {| clock := clock w; sent := sent w; heap := h; next := n;
     dispatched := dispatched w |}.

Definition with_dispatched (w : world) (l : list (string * pyval)) : world :=
  {| clock := clock w; sent := sent w; heap := heap w; next := next w;
     dispatched := l |}.

(** One round trip of [aiohttp.ClientSession]. *)
Definition http {net : Platform} (r : request) : M response :=
  fun w => (Ok (server (sent w) r), with_sent w (sent w ++ [r])).

Definition store (h : loc -> pydict) (l : loc) (d : pydict) : loc -> pydict :=
  fun l' => if Nat.eqb l' l then d else h l'.

(** A new dictionary object. *)
Definition alloc (d : pydict) : M loc :=
  fun w => (Ok (next w), with_heap w (store (heap w) (next w) d) (S (next w))).

Definition deref (l : loc) : M pydict := fun w => (Ok (heap w l), w).

(** [payload.pop(k, default)] on the object behind [l]. *)
Definition pop_at (l : loc) (k : string) (default : pyval) : M pyval :=
  fun w => let (v, d) := Dict.pop k default (heap w l) in
           (Ok v, with_heap w (store (heap w) l d) (next w)).

(** [schema[k] = v] on the object behind [l]. *)
Definition set_at (l : loc) (k : string) (v : pyval) : M unit :=
  fun w => (Ok tt, with_heap w (store (heap w) l (Dict.set k v (heap w l))) (next w)).

(** [bot.dispatch(event, payload)] *)
Definition dispatch (event : string) (payload : pyval) : M unit :=
  fun w => (Ok tt, with_dispatched w (dispatched w ++ [(event, payload)])).

(** ** Collaborators from discord.py and PyNaCl *)

(** [discord.Embed] and [discord.AllowedMentions], as far as the reply
    builder uses them. *)
Class Discord : Type := {
  Embed : Type;
  Embed_bool : Embed -> bool;
  Embed_to_dict : Embed -> pydict;
  AllowedMentions : Type;
  AllowedMentions_merge : AllowedMentions -> AllowedMentions -> AllowedMentions;
  AllowedMentions_to_dict : AllowedMentions -> pydict
}.

(** [nacl.signing.VerifyKey]: the constructor and [verify(smessage,
    signature)], which returns the message or raises. *)
Class NaCl : Type := {
  VerifyKeyT : Type;
  VerifyKey : bytes -> result VerifyKeyT;
  VerifyKey_verify : VerifyKeyT -> bytes -> bytes -> result bytes
}.

(** ** models.py: the command tree handed to the schema translator *)

Definition BASE : string := "https://discord.com/api/v8".
Definition USERAGENT : string :=
  "DiscordBot (https://github.com/dragdev-studios/interactions-python, 0.0.1)".

Inductive ApplicationCommandOptionType : Type :=
| SUB_COMMAND | SUB_COMMAND_GROUP | STRING | INTEGER | BOOLEAN | USER | CHANNEL | ROLE.

Definition option_type_value (t : ApplicationCommandOptionType) : Z :=
  match t with
  | SUB_COMMAND => 1 | SUB_COMMAND_GROUP => 2 | STRING => 3 | INTEGER => 4
  | BOOLEAN => 5 | USER => 6 | CHANNEL => 7 | ROLE => 8
  end.

(** The classes a parameter can be annotated with. *)
Inductive pytype : Type :=
| ty_str | ty_int | ty_bool
| ty_User | ty_TextChannel | ty_Role
| ty_UserConverter | ty_TextChannelConverter | ty_RoleConverter
| ty_other (qualname : string).

(** [inspect.Parameter]; [default = None] stands for [Parameter.empty]. *)
Record Param : Type := {
  param_name : string;
  annotation : option pytype;
  default : option pyval
}.

(** [commands.Command] and [commands.Group].  In discord.py a [Group] is
    declared as [class Group(GroupMixin, Command)], so every group is also
    an instance of [Command].  [clean_params] is the ordered mapping from
    parameter name to [inspect.Parameter]; [commands] are the distinct
    sub-commands of a group in the order the group iterates them. *)
Inductive command : Type :=
| Command (name short_doc : string) (clean_params : list (string * Param))
| Group (name short_doc : string) (commands : list command).

Definition isinstance_Command (c : command) : bool :=
  match c with Command _ _ _ => true | Group _ _ _ => true end.

Definition isinstance_Group (c : command) : bool :=
  match c with Command _ _ _ => false | Group _ _ _ => true end.

(** [GroupMixin.walk_commands]: each sub-command, followed, when it is a
    group itself, by everything below it. *)
Fixpoint walk_commands (c : command) : list command :=
  match c with
  | Command _ _ _ => []
  | Group _ _ cs =>
      (fix walk (l : list command) : list command :=
         match l with
         | [] => []
         | cmd :: l' => cmd :: walk_commands cmd ++ walk l'
         end) cs
  end.

Module SlashCommand.

(** What the loop over [command.clean_params] can meet, after the
    annotation [args: Union[str, Param]]. *)
Inductive argument : Type :=
| ArgStr (s : string)
| ArgParam (p : Param).

(** A key offered to [BASE_TYPES.get]. *)
Inductive type_key : Type :=
| KeyType (t : pytype)
| KeyObject (a : argument).

Definition BASE_TYPES : list (pytype * ApplicationCommandOptionType) :=
  [ (ty_str, STRING); (ty_int, INTEGER); (ty_bool, BOOLEAN);
    (ty_User, USER); (ty_TextChannel, CHANNEL); (ty_Role, ROLE);
    (ty_UserConverter, USER); (ty_TextChannelConverter, CHANNEL);
    (ty_RoleConverter, ROLE) ].

Definition pytype_eqb (a b : pytype) : bool :=
  match a, b with
  | ty_str, ty_str | ty_int, ty_int | ty_bool, ty_bool
  | ty_User, ty_User | ty_TextChannel, ty_TextChannel | ty_Role, ty_Role
  | ty_UserConverter, ty_UserConverter
  | ty_TextChannelConverter, ty_TextChannelConverter
  | ty_RoleConverter, ty_RoleConverter => true
  | ty_other x, ty_other y => String.eqb x y
  | _, _ => false
  end.

(** [BASE_TYPES.get(key, default)]: only a class can equal one of the
    table's keys. *)
Definition BASE_TYPES_get (key : type_key) (default : ApplicationCommandOptionType)
  : ApplicationCommandOptionType :=
  match key with
  | KeyType t =>
      match List.find (fun kv => pytype_eqb t (fst kv)) BASE_TYPES with
      | Some kv => snd kv
      | None => default
      end
  | KeyObject _ => default
  end.

(** Iterating a mapping yields its keys. *)
Definition iter_clean_params (ps : list (string * Param)) : list argument :=
  map (fun kv => ArgStr (fst kv)) ps.

Section Resolve.
Context {py : PyBuiltins}.

(** The body of [for argument in args]. *)
Fixpoint leaf_options (args : list argument) : list pyval :=
  match args with
  | [] => []
  | ArgStr _ :: rest => leaf_options rest
  | ArgParam p :: rest =>
      let _type := BASE_TYPES_get (KeyObject (ArgParam p)) STRING in
      let required :=
        match default p with None => true | Some _ => false end in
      VDict [ ("name", VStr (shorten (param_name p) 32));
              ("description", VStr "[No Description]");
              ("type", VInt (option_type_value _type));
              ("required", VBool required) ]
      :: leaf_options rest
  end.

Definition content_of (c : command) (name short_doc : string)
    (options : list pyval) : pydict :=
  [ ("name", VStr name);
    ("description", VStr (shorten short_doc 100));
    ("type", VInt (if isinstance_Command c then 1 else 2));
    ("options", VList ([] ++ options)) ].

(** [_resolve_options] calls itself on every element of
    [command.walk_commands()], which is not a structural sub-term of
    [command].  The translation therefore computes, by structural
    recursion, the schema of [c] together with the schemas of everything
    [c.walk_commands()] yields; [_resolve_options_Group] below recovers
    the equation of the source. *)
Fixpoint resolve_with_walk (c : command) : pydict * list pyval :=
  match c with
  | Command name short_doc clean_params =>
      (content_of c name short_doc
         (leaf_options (iter_clean_params clean_params)), [])
  | Group name short_doc cs =>
      let _options :=
        (fix walk (l : list command) : list pyval :=
           match l with
           | [] => []
           | cmd :: l' =>
               let (schema, below) := resolve_with_walk cmd in
               VDict schema :: below ++ walk l'
           end) cs in
      (content_of c name short_doc _options, _options)
  end.

Definition _resolve_options (c : command) : pydict :=
  fst (resolve_with_walk c).

(** The schema of [c] as an element of an [options] list. *)
Definition schema_of (c : command) : pyval := VDict (_resolve_options c).

End Resolve.

Definition default_uri : string := "/applications/{client_id}/commands".
Definition guild_uri : string :=
  "/applications/{client_id}/guilds/{guild_id}/commands".

(** Looking up the method [format] on the popped value: only a string
    has it. *)
Definition attr_format (v : pyval) : result string :=
  match v with
  | VStr template => Ok template
  | _ => Raise (AttributeError "object has no attribute 'format'")
  end.

Definition registration_headers (token : string) : list (string * string) :=
  [ ("Authorization", "Bot " ++ token); ("User-Agent", USERAGENT) ].

(** The address every registration is posted to. *)
Definition registration_url (client_id : Z) : string :=
  BASE ++ "/applications/" ++ str_of_int client_id ++ "/commands".

Section Register.
Context {py : PyBuiltins} {net : Platform}.

(** [_commands] are references to the caller's dictionaries:
    [payload = command] binds a second name to the same object. *)
Fixpoint create_global_commands (client_id : Z) (token : string)
    (_commands : list loc) : M unit :=
  match _commands with
  | [] => ret tt
  | command :: rest =>
      let payload := command in
      popped <- pop_at payload "uri" (VStr default_uri) ;;
      template <- lift (attr_format popped) ;;
      guild <- pop_at payload "guild_id" (VStr "") ;;
      uri <- lift (format_named template None
                     [ ("client_id", str_of_int client_id);
                       ("guild_id", py_str guild) ]) ;;
      body <- deref payload ;;
      response <- http {| method := "POST";
                          url := registration_url client_id;
                          data := Some (to_json body);
                          headers := registration_headers token |} ;;
      if status response =? 200
      then create_global_commands client_id token rest
      else raise (HTTPException (status response) (json response))
  end.

(** [len(v) > hi or len(v) < lo] *)
Definition out_of_range (v : pyval) (lo hi : nat) : result bool :=
  n <~ py_len v ;; Ok ((hi <? n)%nat || (n <? lo)%nat).

(** [option.get("choices", [])] *)
Definition get_choices (option : pyval) : result pyval :=
  match option with
  | VDict kvs =>
      Ok (match Dict.get "choices" kvs with Some v => v | None => VList [] end)
  | _ => Raise (AttributeError "object has no attribute 'get'")
  end.

Definition name_message : string :=
  "Name " ++ dq ++ "{}" ++ dq
  ++ " is too long or short. Names must be between 3 and 32 characters.".
Definition description_message (description : pyval) : string :=
  "Description " ++ dq ++ py_str description ++ dq
  ++ " is too long or short. Description must be between 1 and 100 characters.".
Definition option_name_message : string :=
  "Option name " ++ dq ++ "{}" ++ dq
  ++ " is too long or short. Names must be between 1 and 32 characters.".
Definition option_description_message (description : pyval) : string :=
  "Option description " ++ dq ++ py_str description ++ dq
  ++ " is too long or short. Description must be between 1 and 100 characters.".
Definition choices_message (name : pyval) : string :=
  "Option " ++ py_str name ++ " has too many choices - There's a limit of 10.".

(** The body of [for option in s["options"]]. *)
Definition validate_option (option : pyval) : result unit :=
  name <~ py_getitem option "name" ;;
  description <~ py_getitem option "description" ;;
  bad_name <~ out_of_range name 1 32 ;;
  if bad_name then Raise (IndexError option_name_message) else
  bad_description <~ out_of_range description 1 100 ;;
  if bad_description
  then Raise (IndexError (option_description_message description)) else
  choices <~ get_choices option ;;
  n <~ py_len choices ;;
  if (10 <? n)%nat then Raise (IndexError (choices_message name))
  else Ok tt.

Fixpoint validate_options (options : list pyval) : result unit :=
  match options with
  | [] => Ok tt
  | option :: rest =>
      _ <~ validate_option option ;; validate_options rest
  end.

(** [_validate_schema]; the warning it logs first does not influence
    the outcome. *)
Definition _validate_schema (s : pydict) : result bool :=
  name <~ py_getitem (VDict s) "name" ;;
  description <~ py_getitem (VDict s) "description" ;;
  bad_name <~ out_of_range name 3 32 ;;
  if bad_name then Raise (IndexError name_message) else
  bad_description <~ out_of_range description 1 100 ;;
  if bad_description
  then Raise (IndexError (description_message description)) else
  options <~ py_getitem (VDict s) "options" ;;
  options <~ py_iter options ;;
  _ <~ validate_options options ;;
  Ok true.

End Register.

(** *** Vocabulary for the statements about registration *)

(** A schema as [add_command] leaves it: no ["uri"], or the guild
    template. *)
Definition registrable (d : pydict) : Prop :=
  Dict.get "uri" d = None \/ Dict.get "uri" d = Some (VStr guild_uri).

(** The mapping once ["uri"] and ["guild_id"] have been popped. *)
Definition stripped (d : pydict) : pydict :=
  Dict.remove "guild_id" (Dict.remove "uri" d).

(** The world once both keys have been popped from the object behind [l]. *)
Definition after_pops (l : loc) (w : world) : world :=
  snd (pop_at l "guild_id" (VStr "")
         (snd (pop_at l "uri" (VStr default_uri) w))).

(** The request that registers the schema [d]. *)
Definition registration_request (client_id : Z) (token : string)
    (d : pydict) : request :=
  {| method := "POST";
     url := registration_url client_id;
     data := Some (to_json (stripped d));
     headers := registration_headers token |}.

(** The address of the guild-scoped registration end point. *)
Definition guild_registration_url (client_id : Z) (guild : string) : string :=
  BASE ++ "/applications/" ++ str_of_int client_id ++ "/guilds/" ++ guild
  ++ "/commands".

Section Posting.
Context {net : Platform}.

(** Posting [reqs] one after the other until an answer is not 200:
    the outcome and the requests the platform has received. *)
Fixpoint post_all (received reqs : list request)
  : result unit * list request :=
  match reqs with
  | [] => (Ok tt, received)
  | r :: rest =>
      let answer := server received r in
      if status answer =? 200
      then post_all (received ++ [r]) rest
      else (Raise (HTTPException (status answer) (json answer)),
            (received ++ [r])%list)
  end.

(** The platform's answer to the [i]-th of [reqs], the earlier ones
    having been received. *)
Definition answer_at (received reqs : list request) (i : nat)
  : option response :=
  match nth_error reqs i with
  | Some r => Some (server (received ++ firstn i reqs) r)
  | None => None
  end.
End Posting.

(** *** Vocabulary for the statements about validation *)

Inductive field : Type :=
| CommandName | CommandDescription
| OptionName | OptionDescription | OptionChoices.

(** The bounds [_validate_schema] tests, as (least, greatest) length. *)
Definition enforced_bounds (f : field) : nat * nat :=
  match f with
  | CommandName => (3, 32)
  | CommandDescription => (1, 100)
  | OptionName => (1, 32)
  | OptionDescription => (1, 100)
  | OptionChoices => (0, 10)
  end%nat.

(** The bounds with 1 as the least length of a command name. *)
Definition stated_bounds (f : field) : nat * nat :=
  match f with
  | CommandName => (1, 32)%nat
  | _ => enforced_bounds f
  end.

Definition sized (v : pyval) : Prop := exists n, py_len v = Ok n.

Definition within (b : nat * nat) (v : pyval) : Prop :=
  exists n, py_len v = Ok n /\ (fst b <= n <= snd b)%nat.

Definition outside (b : nat * nat) (v : pyval) : Prop :=
  exists n, py_len v = Ok n /\ ~ (fst b <= n <= snd b)%nat.

(** The options the loop of [_validate_schema] visits. *)
Definition options_of (s : pydict) : option (list pyval) :=
  match Dict.get "options" s with
  | Some v => match py_iter v with Ok l => Some l | Raise _ => None end
  | None => None
  end.

Section Validation.
Context {py : PyBuiltins}.
Variable B : field -> nat * nat.

Definition option_valid (o : pyval) : Prop :=
  exists name description choices,
    py_getitem o "name" = Ok name /\ within (B OptionName) name
    /\ py_getitem o "description" = Ok description
    /\ within (B OptionDescription) description
    /\ get_choices o = Ok choices /\ within (B OptionChoices) choices.

(** Every field is there, with a length inside its bounds. *)
Definition valid (s : pydict) : Prop :=
  exists name description options,
    Dict.get "name" s = Some name /\ within (B CommandName) name
    /\ Dict.get "description" s = Some description
    /\ within (B CommandDescription) description
    /\ options_of s = Some options
    /\ Forall option_valid options.

(** [msg] is the message for a field of option [o] that is outside its
    bounds. *)
Inductive option_offender (o : pyval) : string -> Prop :=
| offends_option_name v :
    py_getitem o "name" = Ok v -> outside (B OptionName) v ->
    option_offender o option_name_message
| offends_option_description v :
    py_getitem o "description" = Ok v -> outside (B OptionDescription) v ->
    option_offender o (option_description_message v)
| offends_option_choices name v :
    py_getitem o "name" = Ok name -> get_choices o = Ok v ->
    outside (B OptionChoices) v ->
    option_offender o (choices_message name).

(** [msg] is the message for a field of schema [s] that is outside its
    bounds. *)
Inductive names_offender (s : pydict) : string -> Prop :=
| offends_name v :
    Dict.get "name" s = Some v -> outside (B CommandName) v ->
    names_offender s name_message
| offends_description v :
    Dict.get "description" s = Some v -> outside (B CommandDescription) v ->
    names_offender s (description_message v)
| offends_option options o msg :
    options_of s = Some options -> In o options ->
    option_offender o msg ->
    names_offender s msg.

(** A schema that breaks a bound is refused with an [IndexError] whose
    message names a field that is outside its bounds. *)
Definition rejects_naming_offender (s : pydict) : Prop :=
  ~ valid s ->
  exists msg, names_offender s msg
              /\ _validate_schema s = Raise (IndexError msg).
End Validation.

(** Every field is there and has a length. *)
Definition option_shaped (o : pyval) : Prop :=
  exists name description choices,
    py_getitem o "name" = Ok name /\ sized name
    /\ py_getitem o "description" = Ok description /\ sized description
    /\ get_choices o = Ok choices /\ sized choices.

Definition well_shaped (s : pydict) : Prop :=
  exists name description options,
    Dict.get "name" s = Some name /\ sized name
    /\ Dict.get "description" s = Some description /\ sized description
    /\ options_of s = Some options
    /\ Forall option_shaped options.

End SlashCommand.

(** ** models.py: Interaction *)

Inductive InteractionType : Type := PING | APPLICATION_COMMAND.

(** The bot, as far as this package reads it: [bot.user.id],
    [bot.http.token] and [bot.allowed_mentions]. *)
Module Bot.
Record t {dpy : Discord} : Type := {
  user_id : Z;
  http_token : string;
  allowed_mentions : option AllowedMentions
}.
End Bot.

Module Interaction.

Section Interaction.
Context {py : PyBuiltins} {dpy : Discord} {net : Platform} {sodium : NaCl}.

(** [token_start] is the value of [datetime.utcnow()] at construction,
    in microseconds.  The resolved guild, channel and member, the command
    data and the raw payload are not read by the methods below and are
    left out. *)
Record t : Type := {
  bot : Bot.t;
  id : Z;
  type : InteractionType;
  token : string;
  token_start : Z;
  version : Z
}.

(** [bool(embed)] for an argument that defaults to [None] *)
Definition embed_truthy (embed : option Embed) : bool :=
  match embed with Some e => Embed_bool e | None => false end.

(** [bool(embeds)] for an argument that defaults to [None] *)
Definition embeds_truthy (embeds : option (list Embed)) : bool :=
  match embeds with Some (_ :: _) => true | _ => false end.

Definition followup (self : t) (content tts : pyval)
    (embed : option Embed) (embeds : option (list Embed))
    (allowed_mentions : option AllowedMentions) : result pydict :=
  if embed_truthy embed && embeds_truthy embeds
  then Raise (TypeError "Can't mix embed and embeds parameters.")
  else
    let result : pydict := [] in
    let result :=
      if truthy content
      then Dict.set "content" (VStr (py_str content)) result
      else result in
    let result :=
      if truthy tts then Dict.set "tts" tts result else result in
    let embeds :=
      if embed_truthy embed
      then match embed with Some e => Some [e] | None => embeds end
      else embeds in
    let result :=
      if embeds_truthy embeds
      then Dict.set "embeds"
             (VList (map (fun e => VDict (Embed_to_dict e))
                       (match embeds with Some l => l | None => [] end)))
             result
      else result in
    let allowed_mentions :=
      match allowed_mentions with
      | Some given =>
          match Bot.allowed_mentions (bot self) with
          | Some dflt =>
              VDict (AllowedMentions_to_dict (AllowedMentions_merge dflt given))
          | None => VDict (AllowedMentions_to_dict given)
          end
      | None =>
          match Bot.allowed_mentions (bot self) with
          | Some dflt => VDict (AllowedMentions_to_dict dflt)
          | None => VNone
          end
      end in
    Ok (Dict.set "allowed_mentions" allowed_mentions result).

Definition original_message_uri (self : t) : string :=
  BASE ++ "/webhooks/" ++ str_of_int (Bot.user_id (bot self)) ++ "/"
  ++ token self ++ "/messages/@original".

Definition followup_headers (self : t) : list (string * string) :=
  [ ("Authorization", "Bot " ++ Bot.http_token (bot self));
    ("User-Agent", USERAGENT) ].

(** [(datetime.utcnow() - self.token_start).total_seconds() > 900], on
    microsecond time stamps. *)
Definition token_expired (self : t) (now : Z) : bool :=
  now - token_start self >? 900 * 1000000.

Definition edit_initial_response (self : t) (content tts : pyval)
    (embed : option Embed) (embeds : option (list Embed))
    (allowed_mentions : option AllowedMentions) : M pyval :=
  let URI := original_message_uri self in
  now <- utcnow ;;
  if token_expired self now then raise ExpiredToken else
  if String.eqb (token self) ""
  then raise (InteractionsError "No interaction token provided.") else
  data <- lift (followup self content tts embed embeds allowed_mentions) ;;
  response <- http {| method := "PATCH"; url := URI;
                      data := Some (to_json data);
                      headers := followup_headers self |} ;;
  if negb (status response =? 200)
  then raise (HTTPException (status response) (json response))
  else ret (json response).

Definition delete_initial_response (self : t) : M pyval :=
  let URI := original_message_uri self in
  now <- utcnow ;;
  if token_expired self now then raise ExpiredToken else
  if String.eqb (token self) ""
  then raise (InteractionsError "No interaction token provided.") else
  response <- http {| method := "DELETE"; url := URI;
                      data := None;
                      headers := followup_headers self |} ;;
  if negb (status response =? 200)
  then raise (HTTPException (status response) (json response))
  else ret (json response).

Definition create_new_initial_response : M pyval :=
  raise NotImplementedError.

(** Only [BadSignatureError] is handled, and only around
    [key.verify]. *)
Definition verify_request (X_Signature_Ed25519 X_Signature_Timestamp
    raw_body public_key : string) : result bool :=
  key_bytes <~ fromhex public_key ;;
  key <~ VerifyKey key_bytes ;;
  match
    (let message := encode (X_Signature_Timestamp ++ raw_body) in
     signature <~ fromhex X_Signature_Ed25519 ;;
     VerifyKey_verify key message signature)
  with
  | Raise BadSignatureError => Ok false
  | Raise e => Raise e
  | Ok _ => Ok true
  end.

End Interaction.

End Interaction.

(** ** models.py: SlashCommandContainer *)

Record Guild : Type := { guild_id : Z }.

Module SlashCommandContainer.

Section Container.
Context {py : PyBuiltins} {dpy : Discord} {net : Platform}.

(** [_publish] holds references to the schema dictionaries. *)
Record t : Type := {
  bot : Bot.t;
  excluded : list command;
  _publish : list loc
}.

(** [obj == schema]: a command object never equals a dictionary. *)
Definition command_eq_dict (obj : command) (schema : pydict) : bool := false.

(** [repr(obj)], without the address of the object. *)
Definition repr_command (obj : command) : string :=
  match obj with
  | Command name _ _ => "<Command " ++ name ++ ">"
  | Group name _ _ => "<Group " ++ name ++ ">"
  end.

Definition with_publish (self : t) (l : list loc) : t :=
  {| bot := bot self; excluded := excluded self; _publish := l |}.

(** [add_command] returns the container as the call leaves it. *)
Definition add_command (self : t) (obj : command) (guild : option Guild)
    (auto_generate_schema : bool) (kwargs : pydict) : M t :=
  registered <- (fun w =>
      (Ok (existsb (fun l => command_eq_dict obj (heap w l)) (_publish self)), w)) ;;
  if (registered : bool)
  then raise (IndexError ("Command " ++ dq ++ repr_command obj ++ dq
                          ++ " is already registered as a slash command."))
  else
    schema <- (if auto_generate_schema
               then alloc (SlashCommand._resolve_options obj)
               else (schema <- alloc kwargs ;;
                     _ <- lift (SlashCommand._validate_schema kwargs) ;;
                     ret schema)) ;;
    _ <- match guild with
         | Some g =>
             _ <- set_at schema "guild_id" (VInt (guild_id g)) ;;
             set_at schema "uri" (VStr SlashCommand.guild_uri)
         | None => ret tt
         end ;;
    ret (with_publish self (_publish self ++ [schema])).

End Container.

End SlashCommandContainer.

(** ** fastapi_router.py *)

Record JSONResponse : Type := {
  content : pyval;
  status_code : Z
}.

(** [JSONResponse(content)] answers with status 200. *)
Definition JSONResponse_of (content : pyval) : JSONResponse :=
  {| content := content; status_code := 200 |}.

Record Request : Type := {
  request_headers : list (string * string);
  request_body : bytes
}.

Module Router.

(** *** Loading the module

    Python compiles a module as a whole before it runs any of it, and a
    function whose body uses [await] without being declared [async def]
    does not compile. *)
Record funcdef : Type := {
  def_name : string;
  def_async : bool;
  def_awaits : bool
}.

(** The functions of fastapi_router.py as they are declared: all four
    with a plain [def], and [route] with [await request.body()] in its
    body. *)
Definition module_defs : list funcdef :=
  [ {| def_name := "__init__"; def_async := false; def_awaits := false |};
    {| def_name := "verify_key"; def_async := false; def_awaits := false |};
    {| def_name := "route"; def_async := false; def_awaits := true |};
    {| def_name := "mount"; def_async := false; def_awaits := false |} ].

Definition compile_def (f : funcdef) : result unit :=
  if def_awaits f && negb (def_async f)
  then Raise (SyntaxError "'await' outside async function")
  else Ok tt.

Fixpoint compile (defs : list funcdef) : result unit :=
  match defs with
  | [] => Ok tt
  | f :: rest => _ <~ compile_def f ;; compile rest
  end.

(** [import discord.ext.interactions.fastapi_router] *)
Definition import_module : result unit := compile module_defs.

Section Router.
Context {py : PyBuiltins} {dpy : Discord} {sodium : NaCl}.

(** The module never binds the global name [BOT] that [route] reads;
    [BOT] is [Some b] when another module has set it to [b]. *)
Variable BOT : option Bot.t.

Record t : Type := {
  bot : Bot.t;
  public_key : string;
  _route_added : bool
}.

(** [headers.get(name)], on the headers as the mapping the call sees,
    keyed by the spelling the code asks for. *)
Fixpoint headers_get (name : string) (hs : list (string * string))
  : option string :=
  match hs with
  | [] => None
  | (k, v) :: hs' => if String.eqb name k then Some v else headers_get name hs'
  end.

(** [except Exception: pass] turns every failure of the guarded block
    into the final [return False]. *)
Definition verify_key (headers : list (string * string)) (body : bytes)
    (key : string) : result bool :=
  let signature := headers_get "X-Signature-Ed25519" headers in
  let timestamp := headers_get "X-Signature-Timestamp" headers in
  match timestamp with
  | None => Raise (AttributeError "'NoneType' object has no attribute 'encode'")
  | Some timestamp =>
      let message := (encode timestamp ++ body)%list in
      match
        (key_bytes <~ fromhex key ;;
         vk <~ VerifyKey key_bytes ;;
         signature <~ match signature with
                      | Some sig => fromhex sig
                      | None => Raise (TypeError "fromhex() argument must be str, not NoneType")
                      end ;;
         _ <~ VerifyKey_verify vk message signature ;;
         Ok true)
      with
      | Ok b => Ok b
      | Raise _ => Ok false
      end
  end.

(** The statements of [route], in the order they are written; what is
    dispatched is the coroutine object made from
    [Interaction.from_request(BOT, json)], recorded by its argument. *)
Definition route_body (self : t) (request : Request) : M JSONResponse :=
  let body := request_body request in
  verified <- lift (verify_key (request_headers request) body (public_key self)) ;;
  if negb verified
  then ret {| content := VDict []; status_code := 401 |}
  else
    json <- lift (loads body) ;;
    kind <- lift (py_getitem json "type") ;;
    if py_eq_int kind 1
    then ret (JSONResponse_of (VDict [("type", VInt 1)]))
    else
      match BOT with
      | None => raise (NameError "BOT")
      | Some _ =>
          _ <- dispatch "ext_interaction" json ;;
          ret {| content := VDict []; status_code := 202 |}
      end.

(** [route] as a caller reaches it: the module has to be imported before
    the handler can be mounted and run. *)
Definition route (self : t) (request : Request) : M JSONResponse :=
  _ <- lift import_module ;; route_body self request.

End Router.

End Router.

(** ** Concrete collaborators, for running the code on examples *)

Module Sample.

(** The document [{"type": 1}] as it arrives on the wire. *)
Definition ping_text : string := "{" ++ dq ++ "type" ++ dq ++ ": 1}".

(** [str] on scalars; [shorten] on texts of a single word; a decoder that
    knows the ping document only. *)
#[export] Instance builtins : PyBuiltins := {|
  py_str := fun v =>
    match v with
    | VNone => "None"
    | VBool true => "True"
    | VBool false => "False"
    | VInt z => str_of_int z
    | VStr s => s
    | VList _ => "[...]"
    | VDict _ => "{...}"
    end;
  shorten := fun s width =>
    if (str_len s <=? width)%nat then s else "[...]";
  loads := fun body =>
    if String.eqb (string_of_list_byte body) ping_text
    then Ok (VDict [("type", VInt 1)])
    else Raise (ValueError "Expecting value")
|}.

(** Embeds and mention policies that are their own dictionaries; merging
    keeps the overriding policy. *)
#[export] Instance discord : Discord := {|
  Embed := pydict;
  Embed_bool := fun d => truthy (VDict d);
  Embed_to_dict := fun d => d;
  AllowedMentions := pydict;
  AllowedMentions_merge := fun _ other => other;
  AllowedMentions_to_dict := fun d => d
|}.

(** A stand-in signature scheme: keys are 32 bytes long and the
    signature of every message is the key written twice. *)
#[export] Instance nacl : NaCl := {|
  VerifyKeyT := bytes;
  VerifyKey := fun k =>
    if (List.length k =? 32)%nat then Ok k
    else Raise (ValueError "The key must be exactly 32 bytes long");
  VerifyKey_verify := fun k message signature =>
    if String.eqb (string_of_list_byte signature)
                  (string_of_list_byte (k ++ k))
    then Ok message else Raise BadSignatureError
|}.

(** A platform that accepts every request except the second one. *)
#[export] Instance platform : Platform := {|
  server := fun received _ =>
    {| status := if (List.length received =? 1)%nat then 500 else 200;
       json := VDict [] |}
|}.

Definition the_bot : Bot.t :=
  {| Bot.user_id := 7; Bot.http_token := "secret";
     Bot.allowed_mentions := None |}.

Definition an_interaction : Interaction.t :=
  {| Interaction.bot := the_bot; Interaction.id := 1;
     Interaction.type := APPLICATION_COMMAND;
     Interaction.token := "tok"; Interaction.token_start := 0;
     Interaction.version := 1 |}.

(** A router whose key is 32 zero bytes, and a ping request signed for
    it under the stand-in scheme. *)
Definition a_router : Router.t :=
  {| Router.bot := the_bot;
     Router.public_key := "0000000000000000000000000000000000000000000000000000000000000000";
     Router._route_added := true |}.

Definition a_ping_request : Request :=
  {| request_headers :=
       [ ("X-Signature-Ed25519", "00000000000000000000000000000000000000000000000000000000000000000000000000000000000000000000000000000000000000000000000000000000");
         ("X-Signature-Timestamp", "1604448000") ];
     request_body := encode ping_text |}.

Definition a_schema (name : string) : pydict :=
  [ ("name", VStr name); ("description", VStr "A command");
    ("type", VInt 1); ("options", VList []) ].

(** Three schemas behind the references 0, 1 and 2; the second one is
    scoped to guild 42. *)
Definition three_schemas : world :=
  {| clock := 0; sent := [];
     heap := fun l =>
       match l with
       | O => a_schema "first"
       | S O => Dict.set "uri" (VStr SlashCommand.guild_uri)
                  (Dict.set "guild_id" (VInt 42) (a_schema "second"))
       | _ => a_schema "third"
       end;
     next := 3%nat; dispatched := [] |}.

(** A schema supplied by hand whose only option offers eleven choices. *)
Definition eleven_choices : pydict :=
  [ ("name", VStr "colour"); ("description", VStr "Pick a colour");
    ("options",
     VList [ VDict [ ("name", VStr "shade");
                     ("description", VStr "The shade to use");
                     ("choices", VList (repeat VNone 11)) ] ]) ].

(** A schema supplied by hand with a two-letter name and an empty
    description. *)
Definition short_name_no_description : pydict :=
  [ ("name", VStr "ab"); ("description", VStr ""); ("options", VList []) ].

Definition empty_world : world :=
  {| clock := 0; sent := []; heap := fun _ => []; next := 0%nat;
     dispatched := [] |}.

End Sample.

(** ** models.py: Interaction.from_request *)

(** What [from_request] asks of the host framework: [int(x)],
    [bot.get_guild], [bot.get_channel], [guild.get_member] (each [None]
    when the object is not cached) and [guild.fetch_member], a call
    to the platform that is awaited and acts on the world. *)
Class Host {dpy : Discord} : Type := {
  HostGuild : Type;
  HostChannel : Type;
  HostMember : Type;
  py_int : pyval -> result Z;
  get_guild : Bot.t -> Z -> option HostGuild;
  get_channel : Bot.t -> Z -> option HostChannel;
  get_member : HostGuild -> pyval -> option HostMember;
  fetch_member : HostGuild -> pyval -> M HostMember
}.

Module Parser.

Section Parser.
Context {py : PyBuiltins} {dpy : Discord} {host : Host}.

(** The objects handed to [Interaction.__init__] and kept as attributes. *)
Inductive pyobj : Type :=
| ObjVal (v : pyval)
| ObjBot (b : Bot.t)
| ObjGuild (g : option HostGuild)
| ObjChannel (c : option HostChannel)
| ObjMember (m : HostMember).

(** The keyword-only parameters of [Interaction.__init__]; [version] is
    the only one with a default. *)
Definition keyword_only : list string :=
  ["id"; "type"; "data"; "guild"; "channel"; "member"; "token"; "version"; "raw"].

Definition required_keywords : list string :=
  ["id"; "type"; "data"; "guild"; "channel"; "member"; "token"; "raw"].

Definition given (k : string) (kwargs : list (string * pyobj)) : bool :=
  existsb (fun kv => String.eqb k (fst kv)) kwargs.

Fixpoint kwarg (k : string) (kwargs : list (string * pyobj)) : option pyobj :=
  match kwargs with
  | [] => None
  | (k', v) :: rest => if String.eqb k k' then Some v else kwarg k rest
  end.

(** Binding the keywords of a call: an unknown keyword, then a missing
    required one, is a [TypeError]. *)
Definition bind_keywords (kwargs : list (string * pyobj)) : result unit :=
  match List.find (fun kv => negb (existsb (String.eqb (fst kv)) keyword_only))
          kwargs with
  | Some kv =>
      Raise (TypeError ("__init__() got an unexpected keyword argument '"
                        ++ fst kv ++ "'"))
  | None =>
      match List.filter (fun k => negb (given k kwargs)) required_keywords with
      | [] => Ok tt
      | missing =>
          Raise (TypeError ("__init__() missing required keyword-only arguments: "
                            ++ String.concat ", " missing))
      end
  end.

(** [InteractionType(type)] *)
Definition InteractionType_of (v : pyobj) : result InteractionType :=
  match v with
  | ObjVal x =>
      if py_eq_int x 1 then Ok PING
      else if py_eq_int x 2 then Ok APPLICATION_COMMAND
      else Raise (ValueError (py_str x ++ " is not a valid InteractionType"))
  | _ => Raise (ValueError "object is not a valid InteractionType")
  end.

Definition int_of (v : pyobj) : result Z :=
  match v with
  | ObjVal x => py_int x
  | _ => Raise (TypeError "int() argument must be a string, a bytes-like object or a number")
  end.

Definition InteractionType_value (t : InteractionType) : Z :=
  match t with PING => 1 | APPLICATION_COMMAND => 2 end.

(** [cls(bot, **kwargs)]: the new object, as the list of its attributes.
    Once the keywords are bound only [version] can be absent, and its
    default is 1. *)
Definition Interaction_new (bot : Bot.t) (kwargs : list (string * pyobj))
  : M (list (string * pyobj)) :=
  _ <- lift (bind_keywords kwargs) ;;
  let arg := fun k => match kwarg k kwargs with
                      | Some v => v
                      | None => ObjVal (VInt 1)
                      end in
  id <- lift (int_of (arg "id")) ;;
  type <- lift (InteractionType_of (arg "type")) ;;
  now <- utcnow ;;
  ret [ ("bot", ObjBot bot); ("id", ObjVal (VInt id));
        ("type", ObjVal (VInt (InteractionType_value type)));
        ("data", arg "data"); ("guild", arg "guild");
        ("channel", arg "channel"); ("member", arg "member");
        ("token", arg "token"); ("token_start", ObjVal (VInt now));
        ("version", arg "version"); ("_Interaction__raw", arg "raw") ].

Definition from_request (bot : Bot.t) (body : pyval)
  : M (list (string * pyobj)) :=
  guild_id <- lift (py_getitem body "guild_id") ;;
  guild_id <- lift (py_int guild_id) ;;
  let guild := get_guild bot guild_id in
  id <- lift (py_getitem body "id") ;;
  type <- lift (py_getitem body "type") ;;
  channel_id <- lift (py_getitem body "channel_id") ;;
  channel_id <- lift (py_int channel_id) ;;
  let channel := get_channel bot channel_id in
  member <-
    match guild with
    | None => raise (AttributeError "'NoneType' object has no attribute 'get_member'")
    | Some g =>
        m <- lift (py_getitem body "member") ;;
        member_id <- lift (py_getitem m "id") ;;
        match get_member g member_id with
        | Some found => ret found
        | None => fetch_member g member_id
        end
    end ;;
  token <- lift (py_getitem body "token") ;;
  version <- lift (py_getitem body "version") ;;
  Interaction_new bot
    [ ("id", ObjVal id); ("type", ObjVal type); ("guild", ObjGuild guild);
      ("channel", ObjChannel channel); ("member", ObjMember member);
      ("token", ObjVal token); ("version", ObjVal version);
      ("raw", ObjVal body) ].

End Parser.

End Parser.

(** ** Vocabulary for the statements about groups *)

(** [c] sits somewhere below the group [g]. *)
Inductive below : command -> command -> Prop :=
| below_child (c : command) (name doc : string) (cs : list command) :
    In c cs -> below c (Group name doc cs)
| below_deeper (c c' : command) (name doc : string) (cs : list command) :
    In c cs -> below c' c -> below c' (Group name doc cs).

(** ** More concrete collaborators *)

Module Sample2.

(** A request whose signature is one zero byte. *)
Definition badly_signed_request : Request :=
  {| request_headers :=
       [ ("X-Signature-Ed25519", "00");
         ("X-Signature-Timestamp", "1604448000") ];
     request_body := encode Sample.ping_text |}.

(** An interaction whose token was issued at time 0 and is empty. *)
Definition tokenless_interaction : Interaction.t :=
  {| Interaction.bot := Sample.the_bot; Interaction.id := 1;
     Interaction.type := APPLICATION_COMMAND;
     Interaction.token := ""; Interaction.token_start := 0;
     Interaction.version := 1 |}.

(** A host that knows guild 1 only, with channel 2 and member ["3"];
    [int] reads integers and decimal strings. *)
#[export] Instance host : Host (dpy := Sample.discord) := {|
  HostGuild := Z;
  HostChannel := Z;
  HostMember := pyval;
  py_int := fun v =>
    match v with
    | VInt z => Ok z
    | VBool b => Ok (if b then 1 else 0)
    | VStr s =>
        match NilZero.int_of_string s with
        | Some i => Ok (Z.of_int i)
        | None => Raise (ValueError "invalid literal for int() with base 10")
        end
    | _ => Raise (TypeError "int() argument must be a string, a bytes-like object or a number")
    end;
  get_guild := fun _ id => if id =? 1 then Some 1 else None;
  get_channel := fun _ id => if id =? 2 then Some 2 else None;
  get_member := fun _ id =>
    match id with VStr "3" => Some id | _ => None end;
  fetch_member := fun _ id w =>
    (Raise (HTTPException 404 VNone),
     with_sent w (sent w ++ [ {| method := "GET";
                                 url := BASE ++ "/guilds/1/members/" ++ py_str (PyBuiltins := Sample.builtins) id;
                                 data := None; headers := [] |} ]))
|}.

(** The payload of a command invocation in guild 1. *)
Definition command_payload : pyval :=
  VDict [ ("id", VStr "10"); ("type", VInt 2); ("guild_id", VStr "1");
          ("channel_id", VStr "2");
          ("member", VDict [("id", VStr "3")]);
          ("token", VStr "tok"); ("version", VInt 1) ].

(** A default mention policy, a bot that has it and an interaction of
    that bot. *)
Definition a_policy : @AllowedMentions Sample.discord := [("parse", VList [])].

Definition polite_bot : Bot.t :=
  {| Bot.user_id := 7; Bot.http_token := "secret";
     Bot.allowed_mentions := Some a_policy |}.

Definition polite_interaction : Interaction.t :=
  {| Interaction.bot := polite_bot; Interaction.id := 1;
     Interaction.type := APPLICATION_COMMAND;
     Interaction.token := "tok"; Interaction.token_start := 0;
     Interaction.version := 1 |}.

(** Three schemas behind the references 0, 1 and 2; the third one is
    scoped to guild 42. *)
Definition scoped_third : world :=
  {| clock := 0; sent := [];
     heap := fun l =>
       match l with
       | O => Sample.a_schema "first"
       | S O => Sample.a_schema "second"
       | _ => Dict.set "uri" (VStr SlashCommand.guild_uri)
                (Dict.set "guild_id" (VInt 42) (Sample.a_schema "third"))
       end;
     next := 3%nat; dispatched := [] |}.

(** The letter e with an acute accent, U+00E9: one character, two bytes. *)
Definition e_acute : string :=
  String "195"%char (String "169"%char EmptyString).

Fixpoint replicate_str (n : nat) (s : string) : string :=
  match n with
  | O => EmptyString
  | S n' => s ++ replicate_str n' s
  end.

(** An embed with a title. *)
Definition hello_embed : @Embed Sample.discord := [("title", VStr "Hello")].

(** The world 900 seconds after time 0. *)
Definition at_900_seconds : world :=
  {| clock := 900 * 1000000; sent := []; heap := fun _ => [];
     next := 0%nat; dispatched := [] |}.

End Sample2.

(** * Properties *)

(** ** Dictionaries *)

Lemma get_remove_eq (k : string) (d : pydict) :
  Dict.get k (Dict.remove k d) = None.
Proof.
  induction d as [|[k' v] d IH]; simpl; [reflexivity|].
  destruct (String.eqb k k') eqn:E; simpl; [assumption|].
  rewrite E. assumption.
Qed.

Lemma get_remove_ne (k k' : string) (d : pydict) :
  k <> k' -> Dict.get k (Dict.remove k' d) = Dict.get k d.
Proof.
  intros Hne. induction d as [|[k0 v] d IH]; simpl; [reflexivity|].
  destruct (String.eqb k' k0) eqn:E.
  - apply String.eqb_eq in E. subst k0.
    destruct (String.eqb k k') eqn:E'; [|assumption].
    apply String.eqb_eq in E'. contradiction.
  - simpl. rewrite IH. reflexivity.
Qed.

Lemma remove_absent (k : string) (d : pydict) :
  Dict.get k d = None -> Dict.remove k d = d.
Proof.
  induction d as [|[k' v] d IH]; simpl; [reflexivity|].
  destruct (String.eqb k k'); [discriminate|].
  intros Hd. rewrite IH by assumption. reflexivity.
Qed.

Lemma mem_remove_eq (k : string) (d : pydict) :
  Dict.mem k (Dict.remove k d) = false.
Proof. unfold Dict.mem. rewrite get_remove_eq. reflexivity. Qed.

Lemma get_set_eq (k : string) (v : pyval) (d : pydict) :
  Dict.get k (Dict.set k v d) = Some v.
Proof.
  induction d as [|[k' v'] d IH]; simpl.
  - rewrite String.eqb_refl. reflexivity.
  - destruct (String.eqb k k') eqn:E; simpl.
    + rewrite String.eqb_refl. reflexivity.
    + rewrite E. assumption.
Qed.

Lemma get_set_ne (k k' : string) (v : pyval) (d : pydict) :
  k <> k' -> Dict.get k (Dict.set k' v d) = Dict.get k d.
Proof.
  intros Hne. apply String.eqb_neq in Hne.
  induction d as [|[k0 v0] d IH]; simpl.
  - rewrite Hne. reflexivity.
  - destruct (String.eqb k' k0) eqn:E; simpl.
    + apply String.eqb_eq in E. subst k0. rewrite Hne. reflexivity.
    + rewrite IH. reflexivity.
Qed.

(** ** Schema translation *)

Section CommandInduction.
Variable P : command -> Prop.
Hypothesis P_leaf : forall name doc params, P (Command name doc params).
Hypothesis P_group :
  forall name doc cs, Forall P cs -> P (Group name doc cs).

Lemma command_nested_ind (c : command) : P c.
Proof using P_leaf P_group.
  revert c. fix IH 1. intros [name doc params|name doc cs].
  - apply P_leaf.
  - apply P_group. induction cs as [|x l IHl]; constructor.
    + apply IH.
    + exact IHl.
Qed.
End CommandInduction.

Section ResolveFacts.
Context {py : PyBuiltins}.
Import SlashCommand.

Lemma resolve_with_walk_snd (c : command) :
  snd (resolve_with_walk c) = map schema_of (walk_commands c).
Proof.
  induction c as [name doc params|name doc cs IH] using command_nested_ind.
  - reflexivity.
  - simpl. induction IH as [|x l Hx _ IHl]; [reflexivity|].
    rewrite map_cons, map_app, <- IHl, <- Hx.
    unfold schema_of, _resolve_options.
    destruct (resolve_with_walk x); reflexivity.
Qed.

(** The equation of the source: a group's options are the schemas of
    everything [walk_commands] yields, in that order. *)
Lemma _resolve_options_Group (name doc : string) (cs : list command) :
  _resolve_options (Group name doc cs)
  = content_of (Group name doc cs) name doc
      (map schema_of (walk_commands (Group name doc cs))).
Proof.
  rewrite <- resolve_with_walk_snd. reflexivity.
Qed.

Lemma _resolve_options_Command (name doc : string) (ps : list (string * Param)) :
  _resolve_options (Command name doc ps)
  = content_of (Command name doc ps) name doc
      (leaf_options (iter_clean_params ps)).
Proof. reflexivity. Qed.

(** The loop over [clean_params] only ever meets the keys of the
    mapping, and skips each of them. *)
Lemma leaf_options_of_keys (ps : list (string * Param)) :
  leaf_options (iter_clean_params ps) = [].
Proof. induction ps as [|[k p] ps IH]; simpl; [reflexivity|assumption]. Qed.

(** Were a parameter object to reach the loop body, the table would be
    asked for the object itself, which is none of its keys. *)
Lemma leaf_option_type_is_string (p : Param) (rest : list argument) :
  exists e tl, leaf_options (ArgParam p :: rest) = VDict e :: tl
               /\ Dict.get "type" e = Some (VInt (option_type_value STRING)).
Proof. simpl. eauto. Qed.

End ResolveFacts.

(** C3.  A group holding exactly two leaf commands is translated to a
    mapping whose [options] are the two leaf schemas, in order, each with
    [type] 1.  The group's own [type] is 1 as well: [isinstance(command,
    commands.Command)] holds for a group too, so the value 2 that would mark
    a group is never written. *)
Theorem group_of_two_leaves_schema {py : PyBuiltins}
    (name doc n1 d1 n2 d2 : string) (p1 p2 : list (string * Param)) :
  let a := Command n1 d1 p1 in
  let b := Command n2 d2 p2 in
  let schema := SlashCommand._resolve_options (Group name doc [a; b]) in
  Dict.get "options" schema
    = Some (VList [SlashCommand.schema_of a; SlashCommand.schema_of b])
  /\ Dict.get "type" (SlashCommand._resolve_options a) = Some (VInt 1)
  /\ Dict.get "type" (SlashCommand._resolve_options b) = Some (VInt 1)
  /\ Dict.get "type" schema = Some (VInt 1)
  /\ Dict.get "type" schema <> Some (VInt (option_type_value SUB_COMMAND_GROUP)).
Proof.
  intros a b schema. subst schema.
  rewrite _resolve_options_Group.
  repeat split; try reflexivity.
  simpl. discriminate.
Qed.

(** C4.  For every leaf command the translated [options] list is empty,
    whatever parameters the command declares: the loop runs over the keys
    of [clean_params], which are strings, and skips every one of them.  No
    option entry is produced per declared parameter. *)
Theorem leaf_command_schema_has_no_options {py : PyBuiltins}
    (name doc : string) (params : list (string * Param)) :
  Dict.get "options" (SlashCommand._resolve_options (Command name doc params))
  = Some (VList []).
Proof.
  rewrite _resolve_options_Command. unfold SlashCommand.content_of.
  rewrite leaf_options_of_keys. reflexivity.
Qed.

(** The command [async def echo(ctx, amount: int)]: one declared parameter,
    no option in its schema. *)
Example echo_schema :
  SlashCommand._resolve_options (py := Sample.builtins)
    (Command "echo" "Repeats a number"
       [("amount", {| param_name := "amount"; annotation := Some ty_int;
                      default := None |})])
  = [ ("name", VStr "echo"); ("description", VStr "Repeats a number");
      ("type", VInt 1); ("options", VList []) ].
Proof. reflexivity. Qed.

(** ** Signature verification *)

Lemma encode_app (a b : string) : encode (a ++ b) = (encode a ++ encode b)%list.
Proof.
  unfold encode, list_byte_of_string.
  induction a as [|c a IH]; simpl; [reflexivity|].
  f_equal. exact IH.
Qed.

Section VerifyFacts.
Context {sodium : NaCl}.

(** With the time-stamp header present, [Router.verify_key] always
    returns a boolean. *)
Lemma verify_key_returns (headers : list (string * string)) (body : bytes)
    (key timestamp : string) :
  Router.headers_get "X-Signature-Timestamp" headers = Some timestamp ->
  exists b, Router.verify_key headers body key = Ok b.
Proof.
  intros Hts. unfold Router.verify_key. rewrite Hts.
  match goal with |- context [match ?r with Ok _ => _ | Raise _ => _ end] =>
    destruct r; eauto end.
Qed.

(** [Router.verify_key] answers [True] only after [VerifyKey.verify]
    accepted the signature for the time stamp followed by the body. *)
Lemma verify_key_true (headers : list (string * string)) (body : bytes)
    (key : string) :
  Router.verify_key headers body key = Ok true ->
  exists timestamp signature key_bytes vk sig_bytes message,
    Router.headers_get "X-Signature-Timestamp" headers = Some timestamp
    /\ Router.headers_get "X-Signature-Ed25519" headers = Some signature
    /\ fromhex key = Ok key_bytes
    /\ VerifyKey key_bytes = Ok vk
    /\ fromhex signature = Ok sig_bytes
    /\ VerifyKey_verify vk (encode timestamp ++ body)%list sig_bytes = Ok message.
Proof.
  unfold Router.verify_key.
  destruct (Router.headers_get "X-Signature-Timestamp" headers) as [ts|];
    [|discriminate].
  destruct (fromhex key) as [kb|] eqn:Hk; simpl; [|discriminate].
  destruct (VerifyKey kb) as [vk|] eqn:Hvk; simpl; [|discriminate].
  destruct (Router.headers_get "X-Signature-Ed25519" headers) as [sg|];
    simpl; [|discriminate].
  destruct (fromhex sg) as [sb|] eqn:Hs; simpl; [|discriminate].
  destruct (VerifyKey_verify vk (encode ts ++ body)%list sb) as [m|] eqn:Hv;
    simpl; [|discriminate].
  intros _. exists ts, sg, kb, vk, sb, m. repeat split; assumption || reflexivity.
Qed.

(** [Interaction.verify_request] answers [True] only after
    [VerifyKey.verify] accepted the signature for the time stamp followed
    by the body. *)
Lemma verify_request_true (signature timestamp raw_body public_key : string) :
  Interaction.verify_request signature timestamp raw_body public_key = Ok true ->
  exists key_bytes key sig_bytes message,
    fromhex public_key = Ok key_bytes
    /\ VerifyKey key_bytes = Ok key
    /\ fromhex signature = Ok sig_bytes
    /\ VerifyKey_verify key (encode timestamp ++ encode raw_body)%list sig_bytes
       = Ok message.
Proof.
  unfold Interaction.verify_request. cbv zeta. rewrite encode_app.
  destruct (fromhex public_key) as [kb|] eqn:Hk; simpl; [|discriminate].
  destruct (VerifyKey kb) as [vk|] eqn:Hvk; simpl; [|discriminate].
  destruct (fromhex signature) as [sb|e] eqn:Hs; simpl;
    [|destruct e; discriminate].
  destruct (VerifyKey_verify vk _ sb) as [m|e] eqn:Hv;
    [|destruct e; discriminate].
  intros _. exists kb, vk, sb, m. repeat split; assumption || reflexivity.
Qed.

End VerifyFacts.

(** C1.  [Interaction.verify_request] does not turn malformed hexadecimal
    input into [False]: for the public key ["zz"], and any signature, time
    stamp and body, the [ValueError] of [bytes.fromhex] reaches the caller.
    The conversion of the key stands outside the [try], and the handler
    names [BadSignatureError] only; [Router.verify_key] catches every
    exception ([verify_key_returns]). *)
Theorem verify_request_malformed_key_raises {sodium : NaCl}
    (signature timestamp raw_body : string) :
  Interaction.verify_request signature timestamp raw_body "zz"
  = Raise fromhex_error.
Proof. reflexivity. Qed.

(** On the same malformed key [Router.verify_key] answers [False]. *)
Example verify_key_malformed_key :
  Router.verify_key (sodium := Sample.nacl)
    (request_headers Sample.a_ping_request)
    (request_body Sample.a_ping_request) "zz" = Ok false.
Proof. reflexivity. Qed.

(** ** Follow-up calls *)

(** C2.  When more than 900 seconds have passed since the token was
    issued, [edit_initial_response] and [delete_initial_response] both raise
    [ExpiredToken] and leave the world as it was: nothing is added to the
    requests sent. *)
Theorem expired_token_fails_without_request {py : PyBuiltins} {dpy : Discord} {net : Platform}
    (self : Interaction.t) (content tts : pyval) (embed : option Embed)
    (embeds : option (list Embed)) (allowed_mentions : option AllowedMentions)
    (w : world) :
  clock w - Interaction.token_start self > 900 * 1000000 ->
  Interaction.edit_initial_response self content tts embed embeds
    allowed_mentions w = (Raise ExpiredToken, w)
  /\ Interaction.delete_initial_response self w = (Raise ExpiredToken, w).
Proof.
  intros Hold.
  assert (Hexp : Interaction.token_expired self (clock w) = true).
  { unfold Interaction.token_expired. apply Z.gtb_lt. lia. }
  unfold Interaction.edit_initial_response, Interaction.delete_initial_response,
    bind, utcnow, raise.
  rewrite Hexp. split; reflexivity.
Qed.

Lemma expired_token_fails_without_request_witness :
  let self := {| Interaction.bot := Sample.the_bot; Interaction.id := 1;
                 Interaction.type := APPLICATION_COMMAND;
                 Interaction.token := "tok"; Interaction.token_start := 0;
                 Interaction.version := 1 |} in
  let w := {| clock := 901 * 1000000; sent := []; heap := fun _ => [];
              next := 0%nat; dispatched := [] |} in
  clock w - Interaction.token_start self > 900 * 1000000
  /\ Interaction.edit_initial_response (py := Sample.builtins)
       (net := Sample.platform) self (VStr "hi") (VBool false) None None None w
     = (Raise ExpiredToken, w)
  /\ Interaction.delete_initial_response (net := Sample.platform) self w
     = (Raise ExpiredToken, w).
Proof.
  intros self w.
  assert (Hold : clock w - Interaction.token_start self > 900 * 1000000)
    by reflexivity.
  split; [exact Hold|].
  exact (expired_token_fails_without_request (py := Sample.builtins)
           (net := Sample.platform) self (VStr "hi") (VBool false)
           None None None w Hold).
Defined.

(** ** The reply builder *)

Ltac followup_goals :=
  repeat match goal with
         | |- _ /\ _ => split
         | |- _ = _ => reflexivity
         | |- exists _, _ => eexists; split; [reflexivity|discriminate]
         end.

(** C7, as the code has it.  Whenever [followup] returns a mapping, [content],
    [tts] and [embeds] are present exactly when their argument is truthy
    (with [str(content)], the truthy [tts] and a non-empty list of embed
    mappings as values), and [allowed_mentions] is always present: the key
    is never left out. *)
Theorem followup_keys {py : PyBuiltins} {dpy : Discord}
    (self : Interaction.t) (content tts : pyval) (embed : option Embed)
    (embeds : option (list Embed)) (allowed_mentions : option AllowedMentions)
    (r : pydict) :
  Interaction.followup self content tts embed embeds allowed_mentions = Ok r ->
  Dict.get "content" r
    = (if truthy content then Some (VStr (py_str content)) else None)
  /\ Dict.get "tts" r = (if truthy tts then Some tts else None)
  /\ (if Interaction.embed_truthy embed || Interaction.embeds_truthy embeds
      then exists l, Dict.get "embeds" r = Some (VList l) /\ l <> []
      else Dict.get "embeds" r = None)
  /\ Dict.mem "allowed_mentions" r = true.
Proof.
  unfold Interaction.followup.
  destruct (Interaction.embed_truthy embed) eqn:He;
    destruct (Interaction.embeds_truthy embeds) eqn:Hes; simpl;
    try discriminate; intros [= <-];
    unfold Dict.mem;
    rewrite ?get_set_eq, ?get_set_ne by discriminate.
  - destruct embed as [e|]; [|discriminate He].
    destruct (truthy content), (truthy tts); simpl; followup_goals.
  - destruct embeds as [[|e l]|]; try discriminate Hes.
    destruct (truthy content), (truthy tts); simpl; followup_goals.
  - destruct (truthy content), (truthy tts); simpl; followup_goals.
Qed.

Lemma followup_keys_witness :
  let r := [ ("content", VStr "hi");
             ("allowed_mentions", VDict Sample2.a_policy) ] in
  Interaction.followup (py := Sample.builtins) Sample2.polite_interaction
    (VStr "hi") (VBool false) None None None = Ok r
  /\ Dict.get "content" r = Some (VStr "hi")
  /\ Dict.get "tts" r = None
  /\ Dict.get "embeds" r = None
  /\ Dict.mem "allowed_mentions" r = true.
Proof.
  intros r.
  assert (Hrun : Interaction.followup (py := Sample.builtins)
                   Sample2.polite_interaction (VStr "hi") (VBool false)
                   None None None = Ok r) by reflexivity.
  split; [exact Hrun|].
  exact (followup_keys (py := Sample.builtins) Sample2.polite_interaction
           (VStr "hi") (VBool false) None None None r Hrun).
Defined.

(** C7 as stated fails: called without a mention policy, on a bot that has
    no default policy, [followup] does not leave the key [allowed_mentions]
    out of the mapping. *)
Lemma followup_never_omits_allowed_mentions :
  ~ (forall r,
       Interaction.followup (py := Sample.builtins) Sample.an_interaction
         VNone (VBool false) None None None = Ok r ->
       Dict.mem "allowed_mentions" r = false).
Proof.
  intros Hclaim.
  specialize (Hclaim _ eq_refl).
  discriminate Hclaim.
Qed.

(** ** The webhook route *)

(** The statements of [route] do answer a verified ping with status 200
    and [{"type": 1}], leaving the world as it was. *)
Lemma route_body_ping {py : PyBuiltins} {dpy : Discord} {sodium : NaCl}
    (BOT : option Bot.t) (self : Router.t) (request : Request)
    (document kind : pyval) (w : world) :
  Router.verify_key (request_headers request) (request_body request)
    (Router.public_key self) = Ok true ->
  loads (request_body request) = Ok document ->
  py_getitem document "type" = Ok kind ->
  py_eq_int kind 1 = true ->
  Router.route_body BOT self request w
  = (Ok {| content := VDict [("type", VInt 1)]; status_code := 200 |}, w).
Proof.
  intros Hverified Hloads Htype Hping.
  unfold Router.route_body, bind, lift, ret.
  rewrite Hverified. simpl. rewrite Hloads, Htype, Hping. reflexivity.
Qed.

(** C9.  No request is answered with status 200 and [{"type": 1}], a
    verified ping included: [route] is declared with a plain [def] and
    awaits [request.body()], so importing the module raises [SyntaxError]
    and the handler never runs. *)
Theorem route_is_never_reached {py : PyBuiltins} {dpy : Discord} {sodium : NaCl}
    (BOT : option Bot.t) (self : Router.t) (request : Request) (w : world) :
  Router.import_module = Raise (SyntaxError "'await' outside async function")
  /\ Router.route BOT self request w
     = (Raise (SyntaxError "'await' outside async function"), w).
Proof. split; reflexivity. Qed.

(** The verified ping of [Sample] gets no answer. *)
Example ping_is_not_answered :
  Router.verify_key (sodium := Sample.nacl)
    (request_headers Sample.a_ping_request)
    (request_body Sample.a_ping_request)
    (Router.public_key Sample.a_router) = Ok true
  /\ loads (PyBuiltins := Sample.builtins) (request_body Sample.a_ping_request)
     = Ok (VDict [("type", VInt 1)])
  /\ Router.route (py := Sample.builtins) (sodium := Sample.nacl) None
       Sample.a_router Sample.a_ping_request Sample.empty_world
     = (Raise (SyntaxError "'await' outside async function"),
        Sample.empty_world).
Proof. repeat split; vm_compute; reflexivity. Qed.

(** ** Command registration *)

Lemma In_firstn {A : Type} (x : A) (n : nat) (l : list A) :
  In x (firstn n l) -> In x l.
Proof.
  revert l. induction n as [|n IH]; intros [|y l]; simpl; try tauto.
  intros [->|Hx]; [left; reflexivity|right; apply IH, Hx].
Qed.

Section RegistrationFacts.
Context {py : PyBuiltins} {net : Platform}.
Import SlashCommand.

Lemma stripped_idempotent (d : pydict) : stripped (stripped d) = stripped d.
Proof.
  unfold stripped.
  rewrite (remove_absent "uri").
  - apply remove_absent, get_remove_eq.
  - rewrite get_remove_ne by discriminate. apply get_remove_eq.
Qed.

Lemma stripped_no_uri (d : pydict) : Dict.get "uri" (stripped d) = None.
Proof.
  unfold stripped. rewrite get_remove_ne by discriminate. apply get_remove_eq.
Qed.

Lemma stripped_no_guild_id (d : pydict) : Dict.get "guild_id" (stripped d) = None.
Proof. apply get_remove_eq. Qed.

Lemma store_eq (h : loc -> pydict) (l : loc) (d : pydict) : store h l d l = d.
Proof. unfold store. rewrite Nat.eqb_refl. reflexivity. Qed.

Lemma heap_after_pops (l l' : loc) (w : world) :
  heap (after_pops l w) l'
  = if Nat.eqb l' l then stripped (heap w l) else heap w l'.
Proof.
  unfold after_pops, pop_at, store, stripped. simpl.
  destruct (Nat.eqb l' l) eqn:E; [|reflexivity].
  rewrite Nat.eqb_refl. reflexivity.
Qed.

Lemma sent_after_pops (l : loc) (w : world) : sent (after_pops l w) = sent w.
Proof. reflexivity. Qed.

Lemma format_default_uri (c g : string) :
  format_named default_uri None [("client_id", c); ("guild_id", g)]
  = Ok ("/applications/" ++ c ++ "/commands").
Proof. reflexivity. Qed.

Lemma format_guild_uri (c g : string) :
  format_named guild_uri None [("client_id", c); ("guild_id", g)]
  = Ok ("/applications/" ++ c ++ "/guilds/" ++ g ++ "/commands").
Proof. reflexivity. Qed.

(** One turn of the loop on a registrable schema. *)
Lemma create_global_commands_step (client_id : Z) (token : string)
    (l : loc) (rest : list loc) (w : world) :
  registrable (heap w l) ->
  create_global_commands client_id token (l :: rest) w
  = let r := registration_request client_id token (heap w l) in
    let w1 := with_sent (after_pops l w) (sent w ++ [r]) in
    let answer := server (sent w) r in
    if status answer =? 200
    then create_global_commands client_id token rest w1
    else (Raise (HTTPException (status answer) (json answer)), w1).
Proof.
  intros Hreg. cbv zeta.
  change (create_global_commands client_id token (l :: rest) w)
    with ((popped <- pop_at l "uri" (VStr default_uri) ;;
           template <- lift (attr_format popped) ;;
           guild <- pop_at l "guild_id" (VStr "") ;;
           uri <- lift (format_named template None
                          [ ("client_id", str_of_int client_id);
                            ("guild_id", py_str guild) ]) ;;
           body <- deref l ;;
           response <- http {| method := "POST";
                               url := registration_url client_id;
                               data := Some (to_json body);
                               headers := registration_headers token |} ;;
           if status response =? 200
           then create_global_commands client_id token rest
           else raise (HTTPException (status response) (json response))) w).
  unfold bind at 1. unfold pop_at at 1. unfold Dict.pop at 1.
  assert (Hfmt : forall g,
    exists u, format_named
      match Dict.get "uri" (heap w l) with
      | Some v => match v with VStr t => t | _ => "" end
      | None => default_uri
      end None [("client_id", str_of_int client_id); ("guild_id", g)] = Ok u).
  { intros g. destruct Hreg as [-> | ->]; eauto using format_default_uri, format_guild_uri. }
  assert (Hattr : attr_format
      match Dict.get "uri" (heap w l) with
      | Some v => v
      | None => VStr default_uri
      end = Ok match Dict.get "uri" (heap w l) with
               | Some v => match v with VStr t => t | _ => "" end
               | None => default_uri
               end).
  { destruct Hreg as [-> | ->]; reflexivity. }
  unfold bind at 1. unfold lift at 1. rewrite Hattr.
  unfold bind at 1. unfold pop_at at 1. unfold Dict.pop at 1.
  unfold bind at 1. unfold lift at 1.
  match goal with |- context [format_named _ None [_; ("guild_id", ?g)]] =>
    destruct (Hfmt g) as [u ->] end.
  unfold bind at 1. unfold deref at 1.
  unfold bind at 1. unfold http at 1.
  unfold after_pops, pop_at, Dict.pop, registration_request, stripped, raise.
  cbn [snd fst heap sent next with_heap with_sent].
  rewrite !store_eq.
  match goal with |- context [status ?a =? 200] =>
    destruct (status a =? 200) end; reflexivity.
Qed.

Lemma heap_after_step (l l' : loc) (w : world) (log : list request) :
  heap (with_sent (after_pops l w) log) l'
  = if Nat.eqb l' l then stripped (heap w l) else heap w l'.
Proof.
  change (heap (with_sent (after_pops l w) log) l')
    with (heap (after_pops l w) l').
  apply heap_after_pops.
Qed.

Lemma request_after_step (client_id : Z) (token : string) (l l' : loc)
    (w : world) (log : list request) :
  registration_request client_id token (heap (with_sent (after_pops l w) log) l')
  = registration_request client_id token (heap w l').
Proof.
  unfold registration_request. rewrite heap_after_step.
  destruct (Nat.eqb l' l) eqn:E; [|reflexivity].
  apply Nat.eqb_eq in E. subst l'. rewrite stripped_idempotent. reflexivity.
Qed.

Lemma registrable_after_step (l l' : loc) (w : world) (log : list request) :
  registrable (heap w l') ->
  registrable (heap (with_sent (after_pops l w) log) l').
Proof.
  intros Hreg. rewrite heap_after_step.
  destruct (Nat.eqb l' l); [|exact Hreg].
  left. apply stripped_no_uri.
Qed.

(** The loop refines [post_all]: same outcome, same requests; the
    objects behind the first [n] references, those a request was issued
    for, have lost both keys and nothing else has changed. *)
Lemma create_global_commands_run (client_id : Z) (token : string)
    (cmds : list loc) :
  forall w : world,
    Forall (fun l => registrable (heap w l)) cmds ->
    let reqs :=
      map (fun l => registration_request client_id token (heap w l)) cmds in
    let out := create_global_commands client_id token cmds w in
    fst out = fst (post_all (sent w) reqs)
    /\ sent (snd out) = snd (post_all (sent w) reqs)
    /\ exists n : nat,
         (n <= List.length cmds)%nat
         /\ sent (snd out) = (sent w ++ firstn n reqs)%list
         /\ (forall l, heap (snd out) l
                       = if existsb (Nat.eqb l) (firstn n cmds)
                         then stripped (heap w l) else heap w l)
         /\ (fst out = Ok tt -> n = List.length cmds).
Proof.
  induction cmds as [|l rest IH]; intros w Hreg; cbv zeta.
  - simpl. repeat split. exists 0%nat. simpl.
    rewrite app_nil_r. repeat split; auto.
  - inversion Hreg as [|? ? Hl Hrest]; subst.
    rewrite create_global_commands_step by exact Hl. cbv zeta.
    rewrite map_cons.
    set (r := registration_request client_id token (heap w l)).
    set (w1 := with_sent (after_pops l w) (sent w ++ [r])).
    cbn [post_all].
    destruct (status (server (sent w) r) =? 200) eqn:Hst.
    + assert (Hreg1 : Forall (fun l' => registrable (heap w1 l')) rest).
      { eapply List.Forall_impl; [|exact Hrest].
        intros l' Hl'. apply registrable_after_step, Hl'. }
      destruct (IH w1 Hreg1) as (Hres & Hsent & n & Hn & Hlog & Hheap & Hall).
      assert (Hreqs :
        map (fun l' => registration_request client_id token (heap w1 l')) rest
        = map (fun l' => registration_request client_id token (heap w l')) rest).
      { apply map_ext. intros l'. apply request_after_step. }
      rewrite Hreqs in Hres, Hsent, Hlog.
      change (sent w1) with (sent w ++ [r])%list in Hres, Hsent, Hlog.
      split; [exact Hres|]. split; [exact Hsent|].
      exists (S n). split; [simpl; lia|]. split.
      { rewrite Hlog. cbn [firstn]. rewrite <- app_assoc. reflexivity. }
      split; [|intros Hok; simpl; f_equal; apply Hall, Hok].
      intros l0. rewrite Hheap. cbn [firstn existsb].
      unfold w1. rewrite heap_after_step.
      destruct (Nat.eqb l0 l) eqn:E; cbn [orb].
      * apply Nat.eqb_eq in E. subst l0.
        rewrite stripped_idempotent.
        destruct (existsb (Nat.eqb l) (firstn n rest)); reflexivity.
      * reflexivity.
    + split; [reflexivity|]. split; [reflexivity|].
      exists 1%nat. split; [simpl; lia|]. split; [reflexivity|].
      split; [|discriminate].
      intros l0. cbn [snd]. unfold w1. rewrite heap_after_step.
      cbn [firstn existsb]. destruct (Nat.eqb l0 l) eqn:E; cbn [orb].
      * apply Nat.eqb_eq in E. subst l0. reflexivity.
      * reflexivity.
Qed.

Lemma answer_at_cons (received : list request) (r : request)
    (reqs : list request) (i : nat) :
  answer_at received (r :: reqs) (S i) = answer_at (received ++ [r]) reqs i.
Proof.
  unfold answer_at. cbn [nth_error firstn]. rewrite <- app_assoc. reflexivity.
Qed.

Lemma post_all_ok (reqs : list request) :
  forall received,
    (forall i a, answer_at received reqs i = Some a -> status a = 200) ->
    post_all received reqs = (Ok tt, (received ++ reqs)%list).
Proof.
  induction reqs as [|r reqs IH]; intros received Hall; cbn [post_all].
  - rewrite app_nil_r. reflexivity.
  - assert (H0 : status (server received r) = 200).
    { apply (Hall 0%nat). unfold answer_at. cbn [nth_error firstn].
      rewrite app_nil_r. reflexivity. }
    rewrite H0. cbn. rewrite IH.
    + rewrite <- app_assoc. reflexivity.
    + intros i a Hi. apply (Hall (S i)). rewrite answer_at_cons. exact Hi.
Qed.

Lemma post_all_first_failure (reqs : list request) :
  forall received k a,
    answer_at received reqs k = Some a ->
    status a <> 200 ->
    (forall i b, (i < k)%nat -> answer_at received reqs i = Some b ->
                 status b = 200) ->
    post_all received reqs
    = (Raise (HTTPException (status a) (json a)),
       (received ++ firstn (S k) reqs)%list).
Proof.
  induction reqs as [|r reqs IH]; intros received k a Hk Hbad Hbefore.
  - unfold answer_at in Hk. destruct k; discriminate Hk.
  - cbn [post_all]. destruct k as [|k].
    + unfold answer_at in Hk. cbn [nth_error firstn] in Hk.
      rewrite app_nil_r in Hk. injection Hk as <-.
      apply Z.eqb_neq in Hbad. rewrite Hbad. reflexivity.
    + assert (H0 : status (server received r) = 200).
      { apply (Hbefore 0%nat); [lia|]. unfold answer_at.
        cbn [nth_error firstn]. rewrite app_nil_r. reflexivity. }
      rewrite H0. cbn [Z.eqb Pos.eqb].
      rewrite answer_at_cons in Hk.
      rewrite (IH (received ++ [r])%list k a Hk Hbad).
      * cbn [firstn]. rewrite <- app_assoc. reflexivity.
      * intros i b Hi Hb. apply (Hbefore (S i)); [lia|].
        rewrite answer_at_cons. exact Hb.
Qed.

End RegistrationFacts.

(** C5.  On schemas as [add_command] leaves them, [create_global_commands]
    posts the registration requests of its arguments one by one, in the
    order of the list.  If every answer is 200 it returns after one request
    per schema; if the [k]-th answer (counting from 0) is the first that is
    not 200, it raises [HTTPException] for that answer after exactly [k + 1]
    requests, the later schemas never being posted. *)
Theorem create_global_commands_stops_at_first_failure
    {py : PyBuiltins} {net : Platform}
    (client_id : Z) (token : string) (cmds : list loc) (w : world) :
  Forall (fun l => SlashCommand.registrable (heap w l)) cmds ->
  let reqs :=
    map (fun l => SlashCommand.registration_request client_id token (heap w l))
      cmds in
  let out := SlashCommand.create_global_commands client_id token cmds w in
  ((forall i a, SlashCommand.answer_at (sent w) reqs i = Some a -> status a = 200) ->
   fst out = Ok tt /\ sent (snd out) = (sent w ++ reqs)%list)
  /\ (forall k a,
        SlashCommand.answer_at (sent w) reqs k = Some a ->
        status a <> 200 ->
        (forall i b, (i < k)%nat ->
                     SlashCommand.answer_at (sent w) reqs i = Some b ->
                     status b = 200) ->
        fst out = Raise (HTTPException (status a) (json a))
        /\ sent (snd out) = (sent w ++ firstn (S k) reqs)%list).
Proof.
  intros Hreg reqs out.
  destruct (create_global_commands_run client_id token cmds w Hreg)
    as (Hres & Hsent & _).
  fold reqs in Hres, Hsent. fold out in Hres, Hsent.
  split.
  - intros Hall. rewrite Hres, Hsent, (post_all_ok reqs (sent w) Hall).
    split; reflexivity.
  - intros k a Hk Hbad Hbefore.
    rewrite Hres, Hsent,
      (post_all_first_failure reqs (sent w) k a Hk Hbad Hbefore).
    split; reflexivity.
Qed.

Lemma create_global_commands_stops_at_first_failure_witness :
  let w := Sample.three_schemas in
  let cmds := [0; 1; 2]%nat in
  let out := SlashCommand.create_global_commands (py := Sample.builtins)
               (net := Sample.platform) 7 "secret" cmds w in
  Forall (fun l => SlashCommand.registrable (heap w l)) cmds
  /\ fst out = Raise (HTTPException 500 (VDict []))
  /\ List.length (sent (snd out)) = 2%nat.
Proof.
  intros w cmds out.
  assert (Hreg : Forall (fun l => SlashCommand.registrable (heap w l)) cmds).
  { repeat apply List.Forall_cons; try apply List.Forall_nil;
      (left; reflexivity) || (right; reflexivity). }
  split; [exact Hreg|].
  destruct (create_global_commands_stops_at_first_failure
              (py := Sample.builtins) (net := Sample.platform)
              7 "secret" cmds w Hreg) as [_ Hfail].
  destruct (Hfail 1%nat {| status := 500; json := VDict [] |})
    as [Hres Hsent].
  - reflexivity.
  - discriminate.
  - intros i b Hi Hb.
    destruct i as [|i]; [|inversion Hi as [|? Hle]; inversion Hle].
    injection Hb as <-. reflexivity.
  - split; [exact Hres|]. fold out in Hsent. rewrite Hsent. reflexivity.
Defined.

Lemma posted_body_has_no_scope_keys (client_id : Z) (token : string)
    (d : pydict) :
  exists body,
    data (SlashCommand.registration_request client_id token d)
    = Some (dumps (VDict body))
    /\ Dict.mem "uri" body = false /\ Dict.mem "guild_id" body = false.
Proof.
  eexists. split; [reflexivity|]. unfold Dict.mem.
  rewrite stripped_no_uri, stripped_no_guild_id. split; reflexivity.
Qed.

Lemma answer_at_lt {net : Platform} (received reqs : list request) (k : nat)
    (a : response) :
  SlashCommand.answer_at received reqs k = Some a -> (k < List.length reqs)%nat.
Proof.
  unfold SlashCommand.answer_at.
  destruct (nth_error reqs k) eqn:Hk; [|discriminate].
  intros _. apply nth_error_Some. rewrite Hk. discriminate.
Qed.

(** C10, as the code has it.  On schemas as [add_command] leaves them,
    [create_global_commands] removes ["uri"] and ["guild_id"] from the
    caller's own dictionary for every schema it posts, and the body of each
    request is the document of that schema without the two keys.  When every
    answer is 200 that is every schema passed.  When the [k]-th answer
    (counting from 0) is the first that is not 200, it is the first [k + 1]
    schemas, and every dictionary that is not among them is left as it
    was. *)
Theorem create_global_commands_pops_uri_and_guild_id
    {py : PyBuiltins} {net : Platform}
    (client_id : Z) (token : string) (cmds : list loc) (w : world) :
  Forall (fun l => SlashCommand.registrable (heap w l)) cmds ->
  let reqs :=
    map (fun l => SlashCommand.registration_request client_id token (heap w l))
      cmds in
  let out := SlashCommand.create_global_commands client_id token cmds w in
  let popped (l : loc) :=
    heap (snd out) l = SlashCommand.stripped (heap w l)
    /\ Dict.mem "uri" (heap (snd out) l) = false
    /\ Dict.mem "guild_id" (heap (snd out) l) = false in
  (forall r, In r reqs ->
     exists body, data r = Some (dumps (VDict body))
                  /\ Dict.mem "uri" body = false
                  /\ Dict.mem "guild_id" body = false)
  /\ ((forall i a, SlashCommand.answer_at (sent w) reqs i = Some a ->
                   status a = 200) ->
      sent (snd out) = (sent w ++ reqs)%list
      /\ forall l, In l cmds -> popped l)
  /\ (forall k a,
        SlashCommand.answer_at (sent w) reqs k = Some a ->
        status a <> 200 ->
        (forall i b, (i < k)%nat ->
                     SlashCommand.answer_at (sent w) reqs i = Some b ->
                     status b = 200) ->
        sent (snd out) = (sent w ++ firstn (S k) reqs)%list
        /\ (forall l, In l (firstn (S k) cmds) -> popped l)
        /\ (forall l, ~ In l (firstn (S k) cmds) ->
                      heap (snd out) l = heap w l)).
Proof.
  intros Hreg reqs out popped.
  destruct (create_global_commands_run client_id token cmds w Hreg)
    as (Hres & Hsent & n & Hn & Hlog & Hheap & Hall).
  fold reqs in Hres, Hsent, Hlog. fold out in Hres, Hsent, Hlog, Hheap, Hall.
  assert (Hpopped : forall l, In l (firstn n cmds) -> popped l).
  { intros l Hl. unfold popped. rewrite Hheap.
    assert (Hex : existsb (Nat.eqb l) (firstn n cmds) = true).
    { apply existsb_exists. exists l. split; [exact Hl|apply Nat.eqb_refl]. }
    rewrite Hex. unfold Dict.mem.
    rewrite stripped_no_uri, stripped_no_guild_id. repeat split. }
  assert (Hkept : forall l, ~ In l (firstn n cmds) ->
                            heap (snd out) l = heap w l).
  { intros l Hl. rewrite Hheap.
    destruct (existsb (Nat.eqb l) (firstn n cmds)) eqn:Hex; [|reflexivity].
    apply existsb_exists in Hex. destruct Hex as (l' & Hin & Heq).
    apply Nat.eqb_eq in Heq. subst l'. contradiction. }
  split; [|split].
  - intros r Hr. apply in_map_iff in Hr. destruct Hr as (l & <- & _).
    apply posted_body_has_no_scope_keys.
  - intros Hok. rewrite (post_all_ok reqs (sent w) Hok) in Hres, Hsent.
    split; [exact Hsent|].
    rewrite (Hall Hres), firstn_all in Hpopped. exact Hpopped.
  - intros k a Hk Hbad Hbefore.
    rewrite (post_all_first_failure reqs (sent w) k a Hk Hbad Hbefore)
      in Hsent.
    cbn [snd] in Hsent.
    assert (Hnk : n = S k).
    { pose proof (answer_at_lt (sent w) reqs k a Hk) as Hlt.
      rewrite Hlog in Hsent. apply app_inv_head in Hsent.
      apply (f_equal (@List.length request)) in Hsent.
      rewrite !length_firstn in Hsent.
      unfold reqs in Hsent, Hlt. rewrite length_map in Hsent, Hlt. lia. }
    subst n. split; [exact Hlog|]. split; [exact Hpopped|exact Hkept].
Qed.

Lemma create_global_commands_pops_uri_and_guild_id_witness :
  let w := Sample.three_schemas in
  let cmds := [0; 1; 2]%nat in
  let out := SlashCommand.create_global_commands (py := Sample.builtins)
               (net := Sample.platform) 7 "secret" cmds w in
  Forall (fun l => SlashCommand.registrable (heap w l)) cmds
  /\ Dict.mem "uri" (heap w 1%nat) = true
  /\ Dict.mem "guild_id" (heap w 1%nat) = true
  /\ List.length (sent (snd out)) = 2%nat
  /\ heap (snd out) 1%nat = Sample.a_schema "second"
  /\ Dict.mem "uri" (heap (snd out) 1%nat) = false
  /\ Dict.mem "guild_id" (heap (snd out) 1%nat) = false
  /\ heap (snd out) 2%nat = heap w 2%nat.
Proof.
  intros w cmds out.
  assert (Hreg : Forall (fun l => SlashCommand.registrable (heap w l)) cmds).
  { repeat apply List.Forall_cons; try apply List.Forall_nil;
      (left; reflexivity) || (right; reflexivity). }
  split; [exact Hreg|]. split; [reflexivity|]. split; [reflexivity|].
  destruct (create_global_commands_pops_uri_and_guild_id
              (py := Sample.builtins) (net := Sample.platform)
              7 "secret" cmds w Hreg) as (_ & _ & Hfail).
  destruct (Hfail 1%nat {| status := 500; json := VDict [] |})
    as (Hsent & Hpopped & Hkept).
  - reflexivity.
  - discriminate.
  - intros i b Hi Hb.
    destruct i as [|i]; [|inversion Hi as [|? Hle]; inversion Hle].
    injection Hb as <-. reflexivity.
  - fold out in Hsent, Hpopped, Hkept.
    split; [rewrite Hsent; reflexivity|].
    destruct (Hpopped 1%nat) as (Hheap & Huri & Hguild);
      [right; left; reflexivity|].
    split; [rewrite Hheap; reflexivity|].
    split; [exact Huri|]. split; [exact Hguild|].
    apply Hkept. intros [H|[H|[]]]; discriminate H.
Defined.

(** C10 as stated fails: of three schemas passed, the second answered 500,
    the third is never reached and still has ["uri"] and ["guild_id"] in the
    caller's dictionary when the call raises. *)
Lemma schema_after_failure_keeps_its_keys :
  let w := Sample2.scoped_third in
  let cmds := [0; 1; 2]%nat in
  let out := SlashCommand.create_global_commands (py := Sample.builtins)
               (net := Sample.platform) 7 "secret" cmds w in
  ~ (forall l, In l cmds ->
               Dict.mem "uri" (heap (snd out) l) = false
               /\ Dict.mem "guild_id" (heap (snd out) l) = false).
Proof.
  intros w cmds out Hclaim.
  destruct (Hclaim 2%nat) as [Huri _]; [right; right; left; reflexivity|].
  vm_compute in Huri. discriminate Huri.
Qed.

Lemma append_inj_l (a x y : string) : (a ++ x = a ++ y)%string -> x = y.
Proof.
  induction a as [|c a IH]; simpl; [auto|].
  intros [= Heq]. apply IH, Heq.
Qed.

Lemma global_url_is_not_guild_url (client_id : Z) (guild : string) :
  SlashCommand.registration_url client_id
  <> SlashCommand.guild_registration_url client_id guild.
Proof.
  unfold SlashCommand.registration_url, SlashCommand.guild_registration_url.
  intros Heq. do 3 apply append_inj_l in Heq. discriminate Heq.
Qed.

(** C8.  A command added with a guild gets ["guild_id"] and the guild
    template under ["uri"], but the request that registers it still goes to
    the global address [/applications/{client_id}/commands]: the formatted
    [uri] is computed and then not used by [session.post].  So the request
    does not go to [/applications/{client_id}/guilds/{guild_id}/commands]. *)
Theorem guild_command_is_posted_to_global_url
    {py : PyBuiltins} {dpy : Discord} {net : Platform}
    (bot : Bot.t) (excluded : list command) (obj : command) (guild : Guild)
    (client_id : Z) (token : string) (w : world) :
  let self := {| SlashCommandContainer.bot := bot;
                 SlashCommandContainer.excluded := excluded;
                 SlashCommandContainer._publish := [] |} in
  exists self' w1 r,
    SlashCommandContainer.add_command self obj (Some guild) true [] w
    = (Ok self', w1)
    /\ SlashCommandContainer._publish self' = [next w]
    /\ Dict.get "guild_id" (heap w1 (next w)) = Some (VInt (guild_id guild))
    /\ Dict.get "uri" (heap w1 (next w)) = Some (VStr SlashCommand.guild_uri)
    /\ sent (snd (SlashCommand.create_global_commands client_id token
                    (SlashCommandContainer._publish self') w1))
       = (sent w ++ [r])%list
    /\ method r = "POST"
    /\ url r = SlashCommand.registration_url client_id
    /\ url r <> SlashCommand.guild_registration_url client_id
                  (py_str (VInt (guild_id guild))).
Proof.
  intros self.
  set (schema := Dict.set "uri" (VStr SlashCommand.guild_uri)
                   (Dict.set "guild_id" (VInt (guild_id guild))
                      (SlashCommand._resolve_options obj))).
  assert (Hguild : Dict.get "guild_id" schema = Some (VInt (guild_id guild))).
  { unfold schema. rewrite get_set_ne by discriminate. apply get_set_eq. }
  assert (Huri : Dict.get "uri" schema = Some (VStr SlashCommand.guild_uri)).
  { unfold schema. apply get_set_eq. }
  eexists. eexists.
  exists (SlashCommand.registration_request client_id token schema).
  split; [reflexivity|].
  cbn [SlashCommandContainer._publish SlashCommandContainer.with_publish
       self app heap with_heap next].
  rewrite !store_eq. fold schema.
  split; [reflexivity|]. split; [exact Hguild|]. split; [exact Huri|].
  split; [|split; [reflexivity|split;
             [reflexivity|apply global_url_is_not_guild_url]]].
  rewrite create_global_commands_step
    by (cbn [heap with_heap]; rewrite store_eq; right; exact Huri).
  cbn [heap with_heap sent]. rewrite !store_eq. fold schema. cbv zeta.
  match goal with |- context [status ?a =? 200] =>
    destruct (status a =? 200) end; reflexivity.
Qed.

(** ** Validation of a schema supplied by hand *)

Section ValidationFacts.
Context {py : PyBuiltins}.
Import SlashCommand.

Lemma within_not_outside (b : nat * nat) (v : pyval) :
  within b v -> outside b v -> False.
Proof.
  intros (n & Hn & Hin) (m & Hm & Hout).
  rewrite Hn in Hm. injection Hm as <-. contradiction.
Qed.

(** [out_of_range] decides the bounds of a value that has a length. *)
Lemma out_of_range_sized (v : pyval) (lo hi : nat) :
  sized v ->
  (out_of_range v lo hi = Ok false /\ within (lo, hi) v)
  \/ (out_of_range v lo hi = Ok true /\ outside (lo, hi) v).
Proof.
  intros (n & Hn). unfold out_of_range, within, outside. rewrite Hn. simpl.
  destruct (Nat.ltb_spec hi n); destruct (Nat.ltb_spec n lo); simpl;
    [right|right|right|left]; (split; [reflexivity|]);
    exists n; (split; [reflexivity|]); lia.
Qed.

Lemma out_of_range_false (v : pyval) (lo hi : nat) :
  out_of_range v lo hi = Ok false -> within (lo, hi) v.
Proof.
  unfold out_of_range, within.
  destruct (py_len v) as [n|]; simpl; [|discriminate].
  intros [= Hb]. apply orb_false_iff in Hb. destruct Hb as [H1 H2].
  apply Nat.ltb_ge in H1, H2. exists n. simpl. split; [reflexivity|lia].
Qed.

(** An option that passes the loop body is inside the enforced bounds. *)
Lemma validate_option_ok (o : pyval) :
  validate_option o = Ok tt -> option_valid enforced_bounds o.
Proof.
  unfold validate_option, option_valid.
  destruct (py_getitem o "name") as [name|]; simpl; [|discriminate].
  destruct (py_getitem o "description") as [description|]; simpl;
    [|discriminate].
  destruct (out_of_range name 1 32) as [[|]|] eqn:Hname; simpl;
    try discriminate.
  destruct (out_of_range description 1 100) as [[|]|] eqn:Hdesc; simpl;
    try discriminate.
  destruct (get_choices o) as [choices|]; simpl; [|discriminate].
  destruct (py_len choices) as [n|] eqn:Hlen; simpl; [|discriminate].
  destruct (Nat.ltb_spec 10 n); [discriminate|]. intros _.
  exists name, description, choices.
  repeat split; auto using out_of_range_false.
  exists n. simpl. split; [exact Hlen|lia].
Qed.

(** On an option whose fields all have a length, the loop body either
    passes or raises the message of a field outside its bounds. *)
Lemma validate_option_cases (o : pyval) :
  option_shaped o ->
  validate_option o = Ok tt
  \/ exists msg, option_offender enforced_bounds o msg
                 /\ validate_option o = Raise (IndexError msg).
Proof.
  intros (name & description & choices & Hname & Sname & Hdesc & Sdesc
          & Hch & n & Hn).
  unfold validate_option. rewrite Hname, Hdesc. simpl.
  destruct (out_of_range_sized name 1 32 Sname) as [[-> _]|[-> Hout]]; simpl.
  2:{ right. eexists. split; [|reflexivity].
      eapply offends_option_name; eauto. }
  destruct (out_of_range_sized description 1 100 Sdesc)
    as [[-> _]|[-> Hout]]; simpl.
  2:{ right. eexists. split; [|reflexivity].
      eapply offends_option_description; eauto. }
  rewrite Hch. simpl. rewrite Hn. simpl.
  destruct (Nat.ltb_spec 10 n); [|left; reflexivity].
  right. eexists. split; [|reflexivity].
  eapply offends_option_choices; eauto.
  exists n. simpl. split; [exact Hn|lia].
Qed.

Lemma validate_options_ok (options : list pyval) :
  validate_options options = Ok tt ->
  Forall (option_valid enforced_bounds) options.
Proof.
  induction options as [|o options IH]; simpl; intros Hrun.
  - apply List.Forall_nil.
  - destruct (validate_option o) as [[]|] eqn:Ho; simpl in Hrun;
      [|discriminate].
    apply List.Forall_cons; [apply validate_option_ok, Ho|apply IH, Hrun].
Qed.

Lemma validate_options_cases (options : list pyval) :
  Forall option_shaped options ->
  validate_options options = Ok tt
  \/ exists o msg, In o options
                   /\ option_offender enforced_bounds o msg
                   /\ validate_options options = Raise (IndexError msg).
Proof.
  induction 1 as [|o options Ho _ IH]; simpl; [left; reflexivity|].
  destruct (validate_option_cases o Ho) as [->|(msg & Hoff & ->)]; simpl.
  - destruct IH as [->|(o' & msg & Hin & Hoff & ->)];
      [left; reflexivity|].
    right. exists o', msg. auto.
  - right. exists o, msg. auto.
Qed.

Lemma options_of_run (s : pydict) (options : list pyval) :
  options_of s = Some options ->
  exists raw, py_getitem (VDict s) "options" = Ok raw
              /\ py_iter raw = Ok options.
Proof.
  unfold options_of. simpl.
  destruct (Dict.get "options" s) as [raw|]; [|discriminate].
  destruct (py_iter raw) as [l|] eqn:Hiter; [|discriminate].
  intros [= <-]. eauto.
Qed.

(** An accepted schema is inside the enforced bounds. *)
Lemma _validate_schema_ok (s : pydict) :
  _validate_schema s = Ok true -> valid enforced_bounds s.
Proof.
  unfold _validate_schema, valid, options_of. simpl.
  destruct (Dict.get "name" s) as [name|]; simpl; [|discriminate].
  destruct (Dict.get "description" s) as [description|]; simpl;
    [|discriminate].
  destruct (out_of_range name 3 32) as [[|]|] eqn:Hname; simpl;
    try discriminate.
  destruct (out_of_range description 1 100) as [[|]|] eqn:Hdesc; simpl;
    try discriminate.
  destruct (Dict.get "options" s) as [raw|]; simpl; [|discriminate].
  destruct (py_iter raw) as [options|]; simpl; [|discriminate].
  destruct (validate_options options) as [[]|] eqn:Hopts; simpl;
    [|discriminate].
  intros _. exists name, description, options.
  repeat split; auto using out_of_range_false, validate_options_ok.
Qed.

(** On a schema whose fields all have a length, [_validate_schema]
    either accepts or raises the message of a field outside its bounds. *)
Lemma _validate_schema_cases (s : pydict) :
  well_shaped s ->
  _validate_schema s = Ok true
  \/ exists msg, names_offender enforced_bounds s msg
                 /\ _validate_schema s = Raise (IndexError msg).
Proof.
  intros (name & description & options & Hname & Sname & Hdesc & Sdesc
          & Hopts & Hshaped).
  destruct (options_of_run s options Hopts) as (raw & Hraw & Hiter).
  unfold _validate_schema. rewrite Hraw. simpl.
  rewrite Hname, Hdesc. simpl.
  destruct (out_of_range_sized name 3 32 Sname) as [[-> _]|[-> Hout]]; simpl.
  2:{ right. eexists. split; [|reflexivity]. eapply offends_name; eauto. }
  destruct (out_of_range_sized description 1 100 Sdesc)
    as [[-> _]|[-> Hout]]; simpl.
  2:{ right. eexists. split; [|reflexivity].
      eapply offends_description; eauto. }
  rewrite Hiter. simpl.
  destruct (validate_options_cases options Hshaped)
    as [->|(o & msg & Hin & Hoff & ->)]; simpl; [left; reflexivity|].
  right. exists msg. split; [|reflexivity].
  eapply offends_option; eauto.
Qed.

(** A field cannot be inside and outside the same bounds. *)
Lemma valid_has_no_offender (B : field -> nat * nat) (s : pydict)
    (msg : string) :
  valid B s -> names_offender B s msg -> False.
Proof.
  intros (name & description & options & Hname & Wname & Hdesc & Wdesc
          & Hopts & Hall) Hoff.
  destruct Hoff as [v Hv Hout|v Hv Hout|options' o msg Hopts' Hin Hoff].
  - rewrite Hname in Hv. injection Hv as <-.
    exact (within_not_outside _ _ Wname Hout).
  - rewrite Hdesc in Hv. injection Hv as <-.
    exact (within_not_outside _ _ Wdesc Hout).
  - rewrite Hopts in Hopts'. injection Hopts' as <-.
    rewrite List.Forall_forall in Hall.
    destruct (Hall o Hin) as (oname & odesc & och & Hon & Won & Hod & Wod
                              & Hoc & Woc).
    destruct Hoff as [v Hv Hout|v Hv Hout|name' v Hn' Hv Hout].
    + rewrite Hon in Hv. injection Hv as <-.
      exact (within_not_outside _ _ Won Hout).
    + rewrite Hod in Hv. injection Hv as <-.
      exact (within_not_outside _ _ Wod Hout).
    + rewrite Hoc in Hv. injection Hv as <-.
      exact (within_not_outside _ _ Woc Hout).
Qed.

End ValidationFacts.

(** C6, as the code has it: the command name must have 3 to 32 characters.
    On a schema whose fields all have a length, [_validate_schema] accepts
    exactly when the command name has 3 to 32 characters, every option name
    1 to 32, the command description and every option description 1 to 100,
    and no option more than 10 choices; a schema that breaks one of these
    bounds is refused with an [IndexError] whose message names a field that
    is outside its bounds. *)
Theorem _validate_schema_enforces_bounds {py : PyBuiltins} (s : pydict) :
  SlashCommand.well_shaped s ->
  (SlashCommand._validate_schema s = Ok true
   <-> SlashCommand.valid SlashCommand.enforced_bounds s)
  /\ SlashCommand.rejects_naming_offender SlashCommand.enforced_bounds s.
Proof.
  intros Hshape. split; [split|].
  - apply _validate_schema_ok.
  - intros Hvalid.
    destruct (_validate_schema_cases s Hshape) as [Hok|(msg & Hoff & _)];
      [exact Hok|].
    destruct (valid_has_no_offender _ s msg Hvalid Hoff).
  - intros Hinvalid.
    destruct (_validate_schema_cases s Hshape) as [Hok|(msg & Hoff & Hrun)].
    + destruct (Hinvalid (_validate_schema_ok s Hok)).
    + exists msg. split; assumption.
Qed.

Lemma _validate_schema_enforces_bounds_witness :
  SlashCommand.well_shaped Sample.eleven_choices
  /\ (SlashCommand._validate_schema (py := Sample.builtins)
        Sample.eleven_choices = Ok true
      <-> SlashCommand.valid SlashCommand.enforced_bounds Sample.eleven_choices)
  /\ SlashCommand.rejects_naming_offender (py := Sample.builtins)
       SlashCommand.enforced_bounds Sample.eleven_choices.
Proof.
  assert (Hshape : SlashCommand.well_shaped Sample.eleven_choices).
  { do 3 eexists.
    split; [reflexivity|]. split; [eexists; reflexivity|].
    split; [reflexivity|]. split; [eexists; reflexivity|].
    split; [reflexivity|].
    apply List.Forall_cons; [|apply List.Forall_nil].
    do 3 eexists.
    split; [reflexivity|]. split; [eexists; reflexivity|].
    split; [reflexivity|]. split; [eexists; reflexivity|].
    split; [reflexivity|]. eexists; reflexivity. }
  split; [exact Hshape|].
  exact (_validate_schema_enforces_bounds (py := Sample.builtins)
           Sample.eleven_choices Hshape).
Defined.

(** C6 as stated fails.  With 1 as the least length of a command name, the
    schema named ["ab"] with an empty description breaks one bound only, that
    of the description; [_validate_schema] refuses it with the message about
    the name, which is inside the stated bounds. *)
Lemma stated_bounds_do_not_name_offender :
  ~ SlashCommand.rejects_naming_offender (py := Sample.builtins)
      SlashCommand.stated_bounds Sample.short_name_no_description.
Proof.
  intros Hclaim. destruct Hclaim as (msg & Hoff & Hrun).
  - intros (name & description & options & _ & _ & Hd & (n & Hlen & Hb) & _).
    injection Hd as <-. injection Hlen as <-. vm_compute in Hb. lia.
  - assert (Hname : SlashCommand._validate_schema (py := Sample.builtins)
                      Sample.short_name_no_description
                    = Raise (IndexError SlashCommand.name_message))
      by reflexivity.
    rewrite Hname in Hrun. injection Hrun as <-.
    inversion Hoff as [v Hv (n & Hlen & Hb) Hmsg | v Hv Hout Hmsg
                      | options o msg' Hopts Hin Hoo Hmsg].
    + injection Hv as <-. injection Hlen as <-. vm_compute in Hb. lia.
    + injection Hopts as <-. destruct Hin.
Qed.

(** A schema that breaks none of the bounds with least name length 1 is
    still refused when its name has two characters. *)
Example two_letter_name_is_refused :
  SlashCommand._validate_schema (py := Sample.builtins)
    [ ("name", VStr "ab"); ("description", VStr "A command");
      ("options", VList []) ]
  = Raise (IndexError SlashCommand.name_message)
  /\ SlashCommand._validate_schema (py := Sample.builtins)
       [ ("name", VStr "abc"); ("description", VStr "A command");
         ("options", VList []) ]
     = Ok true.
Proof. split; reflexivity. Qed.

(** * Further properties of the code *)

(** ** fastapi_router.py *)

(** X1.  When the request carries the time-stamp header, [Router.verify_key]
    never raises: it answers [True] when the key and the signature header
    decode as hexadecimal, the key is accepted by [VerifyKey] and
    [VerifyKey.verify] accepts the signature for the time stamp followed by
    the body, and [False] in every other case (missing signature header,
    malformed hexadecimal, rejected key, any exception of [verify]). *)
Theorem verify_key_decides {sodium : NaCl}
    (headers : list (string * string)) (body : bytes) (key timestamp : string) :
  Router.headers_get "X-Signature-Timestamp" headers = Some timestamp ->
  let accepted :=
    exists signature key_bytes vk sig_bytes message,
      Router.headers_get "X-Signature-Ed25519" headers = Some signature
      /\ fromhex key = Ok key_bytes
      /\ VerifyKey key_bytes = Ok vk
      /\ fromhex signature = Ok sig_bytes
      /\ VerifyKey_verify vk (encode timestamp ++ body)%list sig_bytes
         = Ok message in
  (Router.verify_key headers body key = Ok true /\ accepted)
  \/ (Router.verify_key headers body key = Ok false /\ ~ accepted).
Proof.
  intros Hts accepted.
  destruct (verify_key_returns headers body key timestamp Hts) as [[|] Hrun].
  - left. split; [exact Hrun|].
    destruct (verify_key_true headers body key Hrun)
      as (ts & sg & kb & vk & sb & m & Hts' & Hsg & Hk & Hvk & Hs & Hv).
    rewrite Hts in Hts'. injection Hts' as <-.
    exists sg, kb, vk, sb, m. repeat split; assumption.
  - right. split; [exact Hrun|].
    intros (sg & kb & vk & sb & m & Hsg & Hk & Hvk & Hs & Hv).
    unfold Router.verify_key in Hrun.
    rewrite Hts, Hk in Hrun. simpl in Hrun.
    rewrite Hvk in Hrun. simpl in Hrun.
    rewrite Hsg, Hs in Hrun. simpl in Hrun.
    rewrite Hv in Hrun. discriminate Hrun.
Qed.

Lemma verify_key_decides_witness :
  Router.headers_get "X-Signature-Timestamp"
    (request_headers Sample2.badly_signed_request) = Some "1604448000"
  /\ Router.verify_key (sodium := Sample.nacl)
       (request_headers Sample2.badly_signed_request)
       (request_body Sample2.badly_signed_request)
       (Router.public_key Sample.a_router) = Ok false.
Proof.
  split; [reflexivity|].
  destruct (verify_key_decides (sodium := Sample.nacl)
              (request_headers Sample2.badly_signed_request)
              (request_body Sample2.badly_signed_request)
              (Router.public_key Sample.a_router) "1604448000" eq_refl)
    as [[Htrue _]|[Hfalse _]].
  - discriminate Htrue.
  - exact Hfalse.
Defined.

(** ** models.py: Interaction *)

(** [bytes.fromhex] raises nothing but its [ValueError]. *)
Lemma fromhex_raises_value_error (s : string) (e : exn) :
  fromhex s = Raise e -> e = fromhex_error.
Proof.
  assert (Hall : forall n s, (String.length s <= n)%nat ->
                             fromhex s = Raise e -> e = fromhex_error).
  { clear s. induction n as [|n IH]; intros [|c s] Hlen; simpl;
      try discriminate; simpl in Hlen; try lia.
    destruct (is_ascii_space c); [apply IH; lia|].
    destruct (hex_digit c); [|intros [= <-]; reflexivity].
    destruct s as [|c' s]; [intros [= <-]; reflexivity|].
    destruct (hex_digit c'); [|intros [= <-]; reflexivity].
    destruct (fromhex s) as [tl|e'] eqn:Htl; simpl; [discriminate|].
    intros [= <-]. apply (IH s); [simpl in Hlen; lia|exact Htl]. }
  apply (Hall (String.length s)). lia.
Qed.

(** X6.  [Interaction.verify_request] answers [False] exactly when the key
    and the signature decode, the key is accepted by [VerifyKey] and
    [VerifyKey.verify] raises [BadSignatureError] for the encoded time stamp
    followed by the encoded body. *)
Theorem verify_request_false_iff {sodium : NaCl}
    (signature timestamp raw_body public_key : string) :
  Interaction.verify_request signature timestamp raw_body public_key = Ok false
  <-> exists key_bytes key sig_bytes,
        fromhex public_key = Ok key_bytes
        /\ VerifyKey key_bytes = Ok key
        /\ fromhex signature = Ok sig_bytes
        /\ VerifyKey_verify key (encode timestamp ++ encode raw_body)%list
             sig_bytes = Raise BadSignatureError.
Proof.
  unfold Interaction.verify_request. cbv zeta. rewrite encode_app. split.
  - destruct (fromhex public_key) as [kb|] eqn:Hk; simpl; [|discriminate].
    destruct (VerifyKey kb) as [vk|] eqn:Hvk; simpl; [|discriminate].
    destruct (fromhex signature) as [sb|e] eqn:Hs; simpl.
    2:{ rewrite (fromhex_raises_value_error signature e Hs). discriminate. }
    destruct (VerifyKey_verify vk _ sb) as [m|e] eqn:Hv; [discriminate|].
    destruct e; try discriminate. intros _.
    exists kb, vk, sb. repeat split; assumption || reflexivity.
  - intros (kb & vk & sb & -> & Hvk & -> & Hv). simpl.
    rewrite Hvk. simpl. rewrite Hv. reflexivity.
Qed.

(** X7.  [followup] raises only in one case, with [TypeError], and that is
    exactly when [embed] and [embeds] are both truthy; an [embed] that is
    falsy next to a non-empty [embeds] is accepted. *)
Theorem followup_raises_iff_both_embeds {py : PyBuiltins} {dpy : Discord}
    (self : Interaction.t) (content tts : pyval) (embed : option Embed)
    (embeds : option (list Embed)) (allowed_mentions : option AllowedMentions) :
  (Interaction.followup self content tts embed embeds allowed_mentions
   = Raise (TypeError "Can't mix embed and embeds parameters.")
   <-> Interaction.embed_truthy embed = true
       /\ Interaction.embeds_truthy embeds = true)
  /\ (forall e,
        Interaction.followup self content tts embed embeds allowed_mentions
        = Raise e ->
        e = TypeError "Can't mix embed and embeds parameters.").
Proof.
  unfold Interaction.followup.
  destruct (Interaction.embed_truthy embed);
    destruct (Interaction.embeds_truthy embeds); simpl; split;
    try (split; [discriminate|intros [? ?]; discriminate]);
    try (intros e; discriminate).
  - split; [auto|reflexivity].
  - intros e [= <-]. reflexivity.
Qed.

(** X8.  In the mapping [followup] returns, a truthy single [embed] appears
    as the one-element list of its mapping; otherwise a non-empty [embeds]
    appears as the list of its mappings in the same order. *)
Theorem followup_embeds_value {py : PyBuiltins} {dpy : Discord}
    (self : Interaction.t) (content tts : pyval) (embed : option Embed)
    (embeds : option (list Embed)) (allowed_mentions : option AllowedMentions)
    (r : pydict) :
  Interaction.followup self content tts embed embeds allowed_mentions = Ok r ->
  (forall e, embed = Some e -> Embed_bool e = true ->
             Dict.get "embeds" r = Some (VList [VDict (Embed_to_dict e)]))
  /\ (forall l, Interaction.embed_truthy embed = false ->
                embeds = Some l -> l <> [] ->
                Dict.get "embeds" r
                = Some (VList (map (fun e => VDict (Embed_to_dict e)) l))).
Proof.
  unfold Interaction.followup. intros Hrun. split.
  - intros e -> He. simpl in Hrun. rewrite He in Hrun. simpl in Hrun.
    destruct (Interaction.embeds_truthy embeds); simpl in Hrun;
      [discriminate|].
    injection Hrun as <-.
    rewrite get_set_ne by discriminate. apply get_set_eq.
  - intros l He -> Hl. rewrite He in Hrun. simpl in Hrun.
    destruct l as [|e l]; [contradiction|]. simpl in Hrun.
    injection Hrun as <-.
    rewrite get_set_ne by discriminate. apply get_set_eq.
Qed.

Lemma followup_embeds_value_witness :
  let e := Sample2.hello_embed in
  let r1 := [ ("embeds", VList [VDict e]); ("allowed_mentions", VNone) ] in
  let r2 := [ ("embeds", VList [VDict e; VDict e]);
              ("allowed_mentions", VNone) ] in
  Interaction.followup (py := Sample.builtins) Sample.an_interaction
    VNone (VBool false) (Some e) None None = Ok r1
  /\ Dict.get "embeds" r1 = Some (VList [VDict e])
  /\ Interaction.followup (py := Sample.builtins) Sample.an_interaction
       VNone (VBool false) None (Some [e; e]) None = Ok r2
  /\ Dict.get "embeds" r2 = Some (VList [VDict e; VDict e]).
Proof.
  intros e r1 r2.
  assert (Hone : Interaction.followup (py := Sample.builtins)
                   Sample.an_interaction VNone (VBool false) (Some e) None None
                 = Ok r1) by reflexivity.
  assert (Htwo : Interaction.followup (py := Sample.builtins)
                   Sample.an_interaction VNone (VBool false) None
                   (Some [e; e]) None = Ok r2) by reflexivity.
  split; [exact Hone|]. split.
  - exact (proj1 (followup_embeds_value (py := Sample.builtins)
                    Sample.an_interaction VNone (VBool false) (Some e) None
                    None r1 Hone) e eq_refl eq_refl).
  - split; [exact Htwo|].
    refine (proj2 (followup_embeds_value (py := Sample.builtins)
                     Sample.an_interaction VNone (VBool false) None
                     (Some [e; e]) None r2 Htwo) [e; e] eq_refl eq_refl _).
    discriminate.
Defined.

Lemma token_not_expired {dpy : Discord} (self : Interaction.t) (now : Z) :
  now - Interaction.token_start self <= 900 * 1000000 ->
  Interaction.token_expired self now = false.
Proof.
  intros Hfresh. unfold Interaction.token_expired.
  destruct (Z.gtb_spec (now - Interaction.token_start self) (900 * 1000000));
    [lia|reflexivity].
Qed.

(** X9.  While the token is at most 900 seconds old (900 seconds exactly
    included) and not empty, [edit_initial_response] sends exactly one
    request: a PATCH to [/webhooks/{bot id}/{token}/messages/@original] whose
    body is the document of the mapping [followup] builds and whose headers
    carry the bot token.  It returns the decoded answer when the status is
    200 and raises [HTTPException] with status and decoded body otherwise. *)
Theorem edit_initial_response_sends_one_patch
    {py : PyBuiltins} {dpy : Discord} {net : Platform}
    (self : Interaction.t) (content tts : pyval) (embed : option Embed)
    (embeds : option (list Embed)) (allowed_mentions : option AllowedMentions)
    (payload : pydict) (w : world) :
  clock w - Interaction.token_start self <= 900 * 1000000 ->
  Interaction.token self <> "" ->
  Interaction.followup self content tts embed embeds allowed_mentions
  = Ok payload ->
  let r := {| method := "PATCH";
              url := BASE ++ "/webhooks/"
                     ++ str_of_int (Bot.user_id (Interaction.bot self)) ++ "/"
                     ++ Interaction.token self ++ "/messages/@original";
              data := Some (dumps (VDict payload));
              headers := [ ("Authorization",
                            "Bot " ++ Bot.http_token (Interaction.bot self));
                           ("User-Agent", USERAGENT) ] |} in
  let answer := server (sent w) r in
  Interaction.edit_initial_response self content tts embed embeds
    allowed_mentions w
  = (if status answer =? 200 then Ok (json answer)
     else Raise (HTTPException (status answer) (json answer)),
     with_sent w (sent w ++ [r])).
Proof.
  intros Hfresh Htoken Hpayload r answer.
  unfold Interaction.edit_initial_response, bind, utcnow, lift, http, raise, ret.
  rewrite (token_not_expired self (clock w) Hfresh).
  apply String.eqb_neq in Htoken. rewrite Htoken, Hpayload.
  subst answer r.
  match goal with |- context [status ?a =? 200] =>
    destruct (status a =? 200) eqn:Hstatus end;
    cbv zeta; unfold Interaction.original_message_uri,
      Interaction.followup_headers, to_json in Hstatus |- *;
    rewrite Hstatus; reflexivity.
Qed.

Lemma edit_initial_response_sends_one_patch_witness :
  let self := Sample.an_interaction in
  let w := Sample2.at_900_seconds in
  clock w - Interaction.token_start self <= 900 * 1000000
  /\ Interaction.token self <> ""
  /\ exists r,
       Interaction.edit_initial_response (py := Sample.builtins)
         (net := Sample.platform) self (VStr "hi") (VBool false) None None None w
       = (Ok (VDict []), with_sent w [r])
       /\ method r = "PATCH"
       /\ url r = "https://discord.com/api/v8/webhooks/7/tok/messages/@original"
       /\ data r = Some (dumps (VDict [ ("content", VStr "hi");
                                        ("allowed_mentions", VNone) ])).
Proof.
  intros self w.
  assert (Hfresh : clock w - Interaction.token_start self <= 900 * 1000000)
    by discriminate.
  assert (Htoken : Interaction.token self <> "") by discriminate.
  split; [exact Hfresh|]. split; [exact Htoken|].
  eexists. split.
  - exact (edit_initial_response_sends_one_patch (py := Sample.builtins)
             (net := Sample.platform) self (VStr "hi") (VBool false)
             None None None _ w Hfresh Htoken eq_refl).
  - repeat split; reflexivity.
Defined.

(** X10.  While the token is at most 900 seconds old and not empty,
    [delete_initial_response] sends exactly one request: a DELETE without a
    body to [/webhooks/{bot id}/{token}/messages/@original].  It returns the
    decoded answer when the status is 200 and raises [HTTPException]
    otherwise. *)
Theorem delete_initial_response_sends_one_delete
    {dpy : Discord} {net : Platform} (self : Interaction.t) (w : world) :
  clock w - Interaction.token_start self <= 900 * 1000000 ->
  Interaction.token self <> "" ->
  let r := {| method := "DELETE";
              url := BASE ++ "/webhooks/"
                     ++ str_of_int (Bot.user_id (Interaction.bot self)) ++ "/"
                     ++ Interaction.token self ++ "/messages/@original";
              data := None;
              headers := [ ("Authorization",
                            "Bot " ++ Bot.http_token (Interaction.bot self));
                           ("User-Agent", USERAGENT) ] |} in
  let answer := server (sent w) r in
  Interaction.delete_initial_response self w
  = (if status answer =? 200 then Ok (json answer)
     else Raise (HTTPException (status answer) (json answer)),
     with_sent w (sent w ++ [r])).
Proof.
  intros Hfresh Htoken r answer.
  unfold Interaction.delete_initial_response, bind, utcnow, http, raise, ret.
  rewrite (token_not_expired self (clock w) Hfresh).
  apply String.eqb_neq in Htoken. rewrite Htoken.
  subst answer r.
  match goal with |- context [status ?a =? 200] =>
    destruct (status a =? 200) eqn:Hstatus end;
    cbv zeta; unfold Interaction.original_message_uri,
      Interaction.followup_headers, to_json in Hstatus |- *;
    rewrite Hstatus; reflexivity.
Qed.

Lemma delete_initial_response_sends_one_delete_witness :
  let self := Sample.an_interaction in
  let w := Sample2.at_900_seconds in
  clock w - Interaction.token_start self <= 900 * 1000000
  /\ Interaction.token self <> ""
  /\ exists r,
       Interaction.delete_initial_response (net := Sample.platform) self w
       = (Ok (VDict []), with_sent w [r])
       /\ method r = "DELETE" /\ data r = None.
Proof.
  intros self w.
  assert (Hfresh : clock w - Interaction.token_start self <= 900 * 1000000)
    by discriminate.
  assert (Htoken : Interaction.token self <> "") by discriminate.
  split; [exact Hfresh|]. split; [exact Htoken|].
  eexists. split.
  - exact (delete_initial_response_sends_one_delete (net := Sample.platform)
             self w Hfresh Htoken).
  - split; reflexivity.
Defined.

(** X11.  With a token that is not expired, the two failures that precede
    the request leave the world untouched: an empty token makes both calls
    raise [InteractionsError], and an [embed] given together with [embeds]
    makes [edit_initial_response] raise the [TypeError] of [followup]. *)
Theorem followup_calls_fail_before_request
    {py : PyBuiltins} {dpy : Discord} {net : Platform}
    (self : Interaction.t) (content tts : pyval) (embed : option Embed)
    (embeds : option (list Embed)) (allowed_mentions : option AllowedMentions)
    (w : world) :
  clock w - Interaction.token_start self <= 900 * 1000000 ->
  (Interaction.token self = "" ->
   Interaction.edit_initial_response self content tts embed embeds
     allowed_mentions w
   = (Raise (InteractionsError "No interaction token provided."), w)
   /\ Interaction.delete_initial_response self w
      = (Raise (InteractionsError "No interaction token provided."), w))
  /\ (Interaction.token self <> "" ->
      Interaction.embed_truthy embed = true ->
      Interaction.embeds_truthy embeds = true ->
      Interaction.edit_initial_response self content tts embed embeds
        allowed_mentions w
      = (Raise (TypeError "Can't mix embed and embeds parameters."), w)).
Proof.
  intros Hfresh.
  unfold Interaction.edit_initial_response, Interaction.delete_initial_response,
    bind, utcnow, lift, raise.
  rewrite (token_not_expired self (clock w) Hfresh). split.
  - intros ->. split; reflexivity.
  - intros Htoken He Hes. apply String.eqb_neq in Htoken. rewrite Htoken.
    unfold Interaction.followup. rewrite He, Hes. reflexivity.
Qed.

Lemma followup_calls_fail_before_request_witness :
  let w := Sample2.at_900_seconds in
  let e := Sample2.hello_embed in
  clock w - Interaction.token_start Sample2.tokenless_interaction
    <= 900 * 1000000
  /\ Interaction.delete_initial_response (net := Sample.platform)
       Sample2.tokenless_interaction w
     = (Raise (InteractionsError "No interaction token provided."), w)
  /\ Interaction.edit_initial_response (py := Sample.builtins)
       (net := Sample.platform) Sample.an_interaction VNone (VBool false)
       (Some e) (Some [e]) None w
     = (Raise (TypeError "Can't mix embed and embeds parameters."), w).
Proof.
  intros w e.
  assert (Hfresh : clock w
                   - Interaction.token_start Sample2.tokenless_interaction
                   <= 900 * 1000000) by discriminate.
  split; [exact Hfresh|]. split.
  - exact (proj2 (proj1 (followup_calls_fail_before_request
                           (py := Sample.builtins) (net := Sample.platform)
                           Sample2.tokenless_interaction VNone (VBool false)
                           None None None w Hfresh) eq_refl)).
  - refine (proj2 (followup_calls_fail_before_request
                     (py := Sample.builtins) (net := Sample.platform)
                     Sample.an_interaction VNone (VBool false)
                     (Some e) (Some [e]) None w Hfresh) _ eq_refl eq_refl).
    discriminate.
Defined.

(** X12.  Whatever the arguments and the answer of the platform,
    [edit_initial_response] and [delete_initial_response] send at most one
    request (there is no retry), always to the address of the original
    message, and change nothing else in the world. *)
Theorem followup_calls_send_at_most_one_request
    {py : PyBuiltins} {dpy : Discord} {net : Platform}
    (self : Interaction.t) (content tts : pyval) (embed : option Embed)
    (embeds : option (list Embed)) (allowed_mentions : option AllowedMentions)
    (w : world) :
  let at_most_one (verb : string) (w' : world) :=
    (sent w' = sent w
     \/ exists r, sent w' = (sent w ++ [r])%list
                  /\ method r = verb
                  /\ url r = Interaction.original_message_uri self)
    /\ clock w' = clock w /\ heap w' = heap w /\ next w' = next w
    /\ dispatched w' = dispatched w in
  at_most_one "PATCH"
    (snd (Interaction.edit_initial_response self content tts embed embeds
            allowed_mentions w))
  /\ at_most_one "DELETE" (snd (Interaction.delete_initial_response self w)).
Proof.
  intros at_most_one. unfold at_most_one.
  unfold Interaction.edit_initial_response, Interaction.delete_initial_response,
    bind, utcnow, lift, http, raise, ret.
  destruct (Interaction.token_expired self (clock w)); simpl;
    [repeat split; left; reflexivity|].
  destruct (String.eqb (Interaction.token self) ""); simpl;
    [repeat split; left; reflexivity|].
  split.
  - destruct (Interaction.followup self content tts embed embeds
                allowed_mentions) as [payload|e]; simpl;
      [|repeat split; left; reflexivity].
    match goal with |- context [status ?a =? 200] =>
      destruct (status a =? 200) end; simpl;
      (split; [right; eexists; repeat split|repeat split]).
  - match goal with |- context [status ?a =? 200] =>
      destruct (status a =? 200) end; simpl;
      (split; [right; eexists; repeat split|repeat split]).
Qed.


(** X13.  [Interaction.from_request] never returns an [Interaction]: for
    every bot, every payload and whatever the host framework answers, it
    raises.  Every path that survives the look-ups ends in the call
    [cls(bot, ..)], which omits the required keyword [data]. *)
Theorem from_request_never_returns
    {py : PyBuiltins} {dpy : Discord} {host : Host}
    (bot : Bot.t) (body : pyval) (w : world) :
  exists e w', Parser.from_request bot body w = (Raise e, w').
Proof.
  unfold Parser.from_request, Parser.Interaction_new, bind, lift, raise, ret.
  repeat match goal with
         | |- context [match ?r with Ok _ => _ | Raise _ => _ end] =>
             destruct r; simpl; eauto
         | |- context [match ?o with Some _ => _ | None => _ end] =>
             destruct o; simpl; eauto
         | |- context [let (_, _) := ?p in _] =>
             destruct p as [[?|?] ?]; simpl; eauto
         | |- context [match ?p with (_, _) => _ end] =>
             destruct p as [[?|?] ?]; simpl; eauto
         end.
Qed.

(** X14.  On a payload that has every field, in a guild the bot knows and
    for a member that is cached, [Interaction.from_request] raises the
    [TypeError] for the missing keyword [data]. *)
Theorem from_request_misses_data
    {py : PyBuiltins} {dpy : Discord} {host : Host}
    (bot : Bot.t) (body : pydict) (w : world)
    (id type guild_id channel_id member member_id token version : pyval)
    (gid cid : Z) (g : HostGuild) (m : HostMember) :
  Dict.get "guild_id" body = Some guild_id -> py_int guild_id = Ok gid ->
  get_guild bot gid = Some g ->
  Dict.get "id" body = Some id -> Dict.get "type" body = Some type ->
  Dict.get "channel_id" body = Some channel_id ->
  py_int channel_id = Ok cid ->
  Dict.get "member" body = Some member ->
  py_getitem member "id" = Ok member_id ->
  get_member g member_id = Some m ->
  Dict.get "token" body = Some token ->
  Dict.get "version" body = Some version ->
  Parser.from_request bot (VDict body) w
  = (Raise (TypeError "__init__() missing required keyword-only arguments: data"),
     w).
Proof.
  intros Hgid Hgint Hg Hid Htype Hcid Hcint Hmember Hmid Hm Htoken Hversion.
  unfold Parser.from_request, Parser.Interaction_new, bind, lift, raise, ret.
  simpl. rewrite Hgid, Hgint, Hid, Htype, Hcid, Hcint, Hg.
  rewrite Hmember, Hmid, Hm, Htoken, Hversion.
  reflexivity.
Qed.

Lemma from_request_misses_data_witness :
  Parser.from_request (py := Sample.builtins) (host := Sample2.host)
    Sample.the_bot Sample2.command_payload Sample.empty_world
  = (Raise (TypeError "__init__() missing required keyword-only arguments: data"),
     Sample.empty_world).
Proof.
  exact (from_request_misses_data (py := Sample.builtins)
           (host := Sample2.host) Sample.the_bot
           [ ("id", VStr "10"); ("type", VInt 2); ("guild_id", VStr "1");
             ("channel_id", VStr "2");
             ("member", VDict [("id", VStr "3")]);
             ("token", VStr "tok"); ("version", VInt 1) ]
           Sample.empty_world
           (VStr "10") (VInt 2) (VStr "1") (VStr "2")
           (VDict [("id", VStr "3")]) (VStr "3") (VStr "tok") (VInt 1)
           1 2 1 (VStr "3")
           eq_refl eq_refl eq_refl eq_refl eq_refl eq_refl eq_refl eq_refl
           eq_refl eq_refl eq_refl eq_refl).
Defined.

(** ** models.py: SlashCommand and SlashCommandContainer *)

Lemma walk_commands_cons (name doc : string) (c : command) (cs : list command) :
  walk_commands (Group name doc (c :: cs))
  = c :: (walk_commands c ++ walk_commands (Group name doc cs))%list.
Proof. reflexivity. Qed.

Lemma walk_commands_below (g c : command) :
  In c (walk_commands g) <-> below c g.
Proof.
  split.
  - revert c. induction g as [name doc params|name doc cs IH]
      using command_nested_ind; intros c Hin; [destruct Hin|].
    induction IH as [|x l Hx _ IHl]; [destruct Hin|].
    rewrite walk_commands_cons in Hin.
    destruct Hin as [<-|Hin]; [apply below_child; left; reflexivity|].
    apply in_app_or in Hin. destruct Hin as [Hin|Hin].
    + apply below_deeper with (c := x); [left; reflexivity|apply Hx, Hin].
    + specialize (IHl Hin). inversion IHl as [? ? ? ? Hc|? ? ? ? ? Hc Hb]; subst.
      * apply below_child. right. exact Hc.
      * eapply below_deeper; [right; exact Hc|exact Hb].
  - induction 1 as [c name doc cs Hin|x c name doc cs Hin Hbelow IH].
    + induction cs as [|y l IHl]; [destruct Hin|].
      rewrite walk_commands_cons. destruct Hin as [->|Hin];
        [left; reflexivity|].
      right. apply in_or_app. right. apply IHl, Hin.
    + induction cs as [|y l IHl]; [destruct Hin|].
      rewrite walk_commands_cons. right. apply in_or_app.
      destruct Hin as [->|Hin]; [left; exact IH|right; apply IHl, Hin].
Qed.

(** X15.  The [options] of a group's schema hold the schema of every command
    below the group, at any depth, and nothing else: the sub-commands of a
    nested group are listed at the top level too, next to the nested group
    that lists them again. *)
Theorem group_options_are_all_commands_below {py : PyBuiltins}
    (name doc : string) (cs : list command) :
  exists options,
    Dict.get "options" (SlashCommand._resolve_options (Group name doc cs))
    = Some (VList options)
    /\ List.length options = List.length (walk_commands (Group name doc cs))
    /\ forall o, In o options
                 <-> exists c, below c (Group name doc cs)
                               /\ o = SlashCommand.schema_of c.
Proof.
  exists (map SlashCommand.schema_of (walk_commands (Group name doc cs))).
  rewrite _resolve_options_Group. split; [reflexivity|].
  split; [apply length_map|].
  intros o. rewrite in_map_iff. split.
  - intros (c & <- & Hin). exists c. split; [apply walk_commands_below, Hin|reflexivity].
  - intros (c & Hbelow & ->). exists c.
    split; [reflexivity|apply walk_commands_below, Hbelow].
Qed.

Lemma add_command_auto_run
    {py : PyBuiltins} {dpy : Discord} {net : Platform}
    (self : SlashCommandContainer.t) (obj : command) (guild : option Guild)
    (kwargs : pydict) (w : world) :
  exists self' w',
    SlashCommandContainer.add_command self obj guild true kwargs w
    = (Ok self', w')
    /\ SlashCommandContainer._publish self'
       = (SlashCommandContainer._publish self ++ [next w])%list
    /\ heap w' (next w)
       = match guild with
         | Some g =>
             Dict.set "uri" (VStr SlashCommand.guild_uri)
               (Dict.set "guild_id" (VInt (guild_id g))
                  (SlashCommand._resolve_options obj))
         | None => SlashCommand._resolve_options obj
         end
    /\ (forall l, l <> next w -> heap w' l = heap w l)
    /\ next w' = S (next w)
    /\ sent w' = sent w.
Proof.
  assert (Hnot : existsb
            (fun l => SlashCommandContainer.command_eq_dict obj (heap w l))
            (SlashCommandContainer._publish self) = false).
  { induction (SlashCommandContainer._publish self); [reflexivity|assumption]. }
  unfold SlashCommandContainer.add_command, bind at 1. rewrite Hnot.
  assert (Hother : forall h l d, l <> next w -> store h (next w) d l = h l).
  { intros h l d Hl. unfold store. apply Nat.eqb_neq in Hl. rewrite Hl.
    reflexivity. }
  destruct guild as [g|]; do 2 eexists; (split; [reflexivity|]);
    cbn [SlashCommandContainer._publish SlashCommandContainer.with_publish
         heap with_heap next sent];
    rewrite ?store_eq; repeat split; try reflexivity;
    intros l Hl; rewrite ?Hother by exact Hl; reflexivity.
Qed.

(** X16.  With [auto_generate_schema], [add_command] never raises, not even
    for a command that was added before: the test [obj in self._publish]
    compares the command with the stored dictionaries and never holds.  The
    call appends one reference to a new dictionary, the translated schema
    (with ["guild_id"] and ["uri"] set when a guild is given), ignores
    [kwargs], sends nothing and leaves every other dictionary as it was. *)
Theorem add_command_auto_always_appends
    {py : PyBuiltins} {dpy : Discord} {net : Platform}
    (self : SlashCommandContainer.t) (obj : command) (guild : option Guild)
    (kwargs : pydict) (w : world) :
  exists self' w',
    SlashCommandContainer.add_command self obj guild true kwargs w
    = (Ok self', w')
    /\ SlashCommandContainer._publish self'
       = (SlashCommandContainer._publish self ++ [next w])%list
    /\ heap w' (next w)
       = match guild with
         | Some g =>
             Dict.set "uri" (VStr SlashCommand.guild_uri)
               (Dict.set "guild_id" (VInt (guild_id g))
                  (SlashCommand._resolve_options obj))
         | None => SlashCommand._resolve_options obj
         end
    /\ (forall l, l <> next w -> heap w' l = heap w l)
    /\ next w' = S (next w)
    /\ sent w' = sent w.
Proof. exact (add_command_auto_run self obj guild kwargs w). Qed.

(** X17.  The schema translated from a leaf command would pass
    [_validate_schema] exactly when the command's name has 3 to 32
    characters and its shortened description 1 to 100; [add_command] does
    not apply this test to the schemas it generates. *)
Theorem leaf_schema_passes_validation_iff {py : PyBuiltins}
    (name doc : string) (params : list (string * Param)) :
  SlashCommand._validate_schema
    (SlashCommand._resolve_options (Command name doc params)) = Ok true
  <-> (3 <= str_len name <= 32)%nat
      /\ (1 <= str_len (shorten doc 100) <= 100)%nat.
Proof.
  rewrite _resolve_options_Command. unfold SlashCommand.content_of.
  rewrite leaf_options_of_keys.
  unfold SlashCommand._validate_schema, SlashCommand.out_of_range. simpl.
  destruct (Nat.ltb_spec 32 (str_len name));
    destruct (Nat.ltb_spec (str_len name) 3); simpl;
    try (split; [discriminate|lia]).
  destruct (Nat.ltb_spec 100 (str_len (shorten doc 100)));
    destruct (Nat.ltb_spec (str_len (shorten doc 100)) 1); simpl;
    try (split; [discriminate|lia]).
  split; [lia|reflexivity].
Qed.

Lemma within_in_range {py : PyBuiltins} (v : pyval) (lo hi : nat) :
  SlashCommand.within (lo, hi) v -> SlashCommand.out_of_range v lo hi = Ok false.
Proof.
  intros Hin.
  assert (Hsized : SlashCommand.sized v)
    by (destruct Hin as (n & Hn & _); exists n; exact Hn).
  destruct (out_of_range_sized v lo hi Hsized) as [[Hrun _]|[_ Hout]];
    [exact Hrun|].
  destruct (within_not_outside _ _ Hin Hout).
Qed.

(** X18.  A schema supplied by hand without the key [options] is never
    accepted: when its name and description are within bounds,
    [_validate_schema] raises [KeyError('options')], so a command without
    options has to be given [options=[]]. *)
Theorem schema_without_options_is_refused {py : PyBuiltins} (s : pydict) :
  Dict.get "options" s = None ->
  SlashCommand._validate_schema s <> Ok true
  /\ forall name description,
       Dict.get "name" s = Some name ->
       SlashCommand.within (3, 32)%nat name ->
       Dict.get "description" s = Some description ->
       SlashCommand.within (1, 100)%nat description ->
       SlashCommand._validate_schema s = Raise (KeyError "options").
Proof.
  intros Hnone. split.
  - intros Hok. apply _validate_schema_ok in Hok.
    destruct Hok as (_ & _ & options & _ & _ & _ & _ & Hopts & _).
    unfold SlashCommand.options_of in Hopts. rewrite Hnone in Hopts.
    discriminate Hopts.
  - intros name description Hname Wname Hdesc Wdesc.
    unfold SlashCommand._validate_schema. simpl.
    rewrite Hname, Hdesc. simpl.
    rewrite (within_in_range name 3 32 Wname). simpl.
    rewrite (within_in_range description 1 100 Wdesc). simpl.
    rewrite Hnone. reflexivity.
Qed.

Lemma schema_without_options_is_refused_witness :
  let s := [ ("name", VStr "ping"); ("description", VStr "Answers pong") ] in
  Dict.get "options" s = None
  /\ SlashCommand._validate_schema (py := Sample.builtins) s
     = Raise (KeyError "options").
Proof.
  intros s. split; [reflexivity|].
  refine (proj2 (schema_without_options_is_refused (py := Sample.builtins)
                   s eq_refl)
            (VStr "ping") (VStr "Answers pong") eq_refl _ eq_refl _).
  - exists 4%nat. split; [reflexivity|]. split; repeat constructor.
  - exists 12%nat. split; [reflexivity|]. split; repeat constructor.
Defined.

(** X19.  The test of one option reads its [name], [description] and
    [choices] only: two option mappings that agree on these three keys get
    the same verdict, whatever their [type], [required] flag or nested
    [options]. *)
Theorem validate_option_reads_three_keys {py : PyBuiltins}
    (o o' : pydict) :
  Dict.get "name" o = Dict.get "name" o' ->
  Dict.get "description" o = Dict.get "description" o' ->
  Dict.get "choices" o = Dict.get "choices" o' ->
  SlashCommand.validate_option (VDict o) = SlashCommand.validate_option (VDict o').
Proof.
  intros Hname Hdesc Hchoices.
  unfold SlashCommand.validate_option, SlashCommand.get_choices. simpl.
  rewrite Hname, Hdesc, Hchoices. reflexivity.
Qed.

Lemma validate_option_reads_three_keys_witness :
  let plain := [ ("name", VStr "shade"); ("description", VStr "The shade") ] in
  let nested :=
    [ ("name", VStr "shade"); ("description", VStr "The shade");
      ("type", VInt 99);
      ("options", VList [VDict [("name", VStr ""); ("description", VStr "")]]) ] in
  SlashCommand.validate_option (py := Sample.builtins) (VDict plain)
  = SlashCommand.validate_option (py := Sample.builtins) (VDict nested)
  /\ SlashCommand.validate_option (py := Sample.builtins) (VDict nested) = Ok tt.
Proof.
  intros plain nested. split; [|reflexivity].
  exact (validate_option_reads_three_keys (py := Sample.builtins)
           plain nested eq_refl eq_refl eq_refl).
Defined.

Lemma get_stripped_other (k : string) (d : pydict) :
  k <> "uri" -> k <> "guild_id" ->
  Dict.get k (SlashCommand.stripped d) = Dict.get k d.
Proof.
  intros Huri Hguild. unfold SlashCommand.stripped.
  rewrite !get_remove_ne by assumption. reflexivity.
Qed.

Lemma create_global_commands_rest_of_world
    {py : PyBuiltins} {net : Platform}
    (client_id : Z) (token : string) (cmds : list loc) :
  forall w : world,
    Forall (fun l => SlashCommand.registrable (heap w l)) cmds ->
    let w' := snd (SlashCommand.create_global_commands client_id token cmds w) in
    clock w' = clock w /\ next w' = next w /\ dispatched w' = dispatched w.
Proof.
  induction cmds as [|l rest IH]; intros w Hreg; cbv zeta.
  - repeat split.
  - inversion Hreg as [|? ? Hl Hrest]; subst.
    rewrite create_global_commands_step by exact Hl. cbv zeta.
    match goal with |- context [status ?a =? 200] =>
      destruct (status a =? 200) end; [|repeat split].
    match goal with |- context [SlashCommand.create_global_commands _ _ rest ?w1] =>
      destruct (IH w1) as (Hclock & Hnext & Hdispatched) end.
    { eapply List.Forall_impl; [|exact Hrest].
      intros l' Hl'. apply registrable_after_step, Hl'. }
    rewrite Hclock, Hnext, Hdispatched. repeat split.
Qed.

(** X20.  On schemas as [add_command] leaves them, [create_global_commands]
    changes nothing but the two keys it pops and the list of requests:
    every other key of every dictionary keeps its value, dictionaries that
    were not passed are left as they were, and the clock, the allocator and
    the dispatched events are untouched. *)
Theorem create_global_commands_frame {py : PyBuiltins} {net : Platform}
    (client_id : Z) (token : string) (cmds : list loc) (w : world) :
  Forall (fun l => SlashCommand.registrable (heap w l)) cmds ->
  let w' := snd (SlashCommand.create_global_commands client_id token cmds w) in
  (forall l k, k <> "uri" -> k <> "guild_id" ->
               Dict.get k (heap w' l) = Dict.get k (heap w l))
  /\ (forall l, ~ In l cmds -> heap w' l = heap w l)
  /\ clock w' = clock w /\ next w' = next w /\ dispatched w' = dispatched w.
Proof.
  intros Hreg w'.
  destruct (create_global_commands_run client_id token cmds w Hreg)
    as (_ & _ & n & _ & _ & Hheap & _).
  fold w' in Hheap. split; [|split].
  - intros l k Huri Hguild. rewrite Hheap.
    destruct (existsb (Nat.eqb l) (firstn n cmds)); [|reflexivity].
    apply get_stripped_other; assumption.
  - intros l Hout. rewrite Hheap.
    destruct (existsb (Nat.eqb l) (firstn n cmds)) eqn:Hex; [|reflexivity].
    apply existsb_exists in Hex. destruct Hex as (l' & Hin & Heq).
    apply Nat.eqb_eq in Heq. subst l'.
    destruct (Hout (In_firstn l n cmds Hin)).
  - exact (create_global_commands_rest_of_world client_id token cmds w Hreg).
Qed.

Lemma create_global_commands_frame_witness :
  let w := Sample.three_schemas in
  let w' := snd (SlashCommand.create_global_commands (py := Sample.builtins)
                   (net := Sample.platform) 7 "secret" [0; 1; 2]%nat w) in
  Forall (fun l => SlashCommand.registrable (heap w l)) [0; 1; 2]%nat
  /\ Dict.get "name" (heap w' 1%nat) = Some (VStr "second")
  /\ heap w' 2%nat = Sample.a_schema "third"
  /\ clock w' = clock w.
Proof.
  intros w w'.
  assert (Hreg : Forall (fun l => SlashCommand.registrable (heap w l))
                   [0; 1; 2]%nat).
  { repeat apply List.Forall_cons; try apply List.Forall_nil;
      (left; reflexivity) || (right; reflexivity). }
  split; [exact Hreg|].
  destruct (create_global_commands_frame (py := Sample.builtins)
              (net := Sample.platform) 7 "secret" [0; 1; 2]%nat w Hreg)
    as (Hkeys & _ & Hclock & _).
  split; [|split; [reflexivity|exact Hclock]].
  fold w' in Hkeys. rewrite (Hkeys 1%nat "name"); [reflexivity| |]; discriminate.
Defined.

(** X21.  A dictionary whose ["uri"] is not a string stops the batch before
    any request for it: [create_global_commands] raises [AttributeError]
    when it looks up [format] on the popped value.  By then ["uri"] has been
    removed from the caller's dictionary, while ["guild_id"] and every other
    key are still there. *)
Theorem create_global_commands_uri_not_a_string
    {py : PyBuiltins} {net : Platform}
    (client_id : Z) (token : string) (l : loc) (rest : list loc)
    (v : pyval) (w : world) :
  Dict.get "uri" (heap w l) = Some v ->
  (forall template, v <> VStr template) ->
  exists w',
    SlashCommand.create_global_commands client_id token (l :: rest) w
    = (Raise (AttributeError "object has no attribute 'format'"), w')
    /\ sent w' = sent w
    /\ heap w' l = Dict.remove "uri" (heap w l)
    /\ Dict.mem "uri" (heap w' l) = false
    /\ Dict.get "guild_id" (heap w' l) = Dict.get "guild_id" (heap w l).
Proof.
  intros Huri Hnot.
  assert (Hattr : SlashCommand.attr_format v
                  = Raise (AttributeError "object has no attribute 'format'")).
  { destruct v; try reflexivity. destruct (Hnot s eq_refl). }
  eexists. split.
  - cbn [SlashCommand.create_global_commands].
    unfold bind at 1. unfold pop_at at 1. unfold Dict.pop at 1.
    rewrite Huri. unfold bind at 1. unfold lift at 1. rewrite Hattr.
    reflexivity.
  - cbn [sent heap with_heap]. rewrite store_eq.
    split; [reflexivity|]. split; [reflexivity|].
    split; [apply mem_remove_eq|apply get_remove_ne; discriminate].
Qed.

Lemma create_global_commands_uri_not_a_string_witness :
  let w := {| clock := 0; sent := [];
              heap := fun _ => [ ("name", VStr "ping"); ("uri", VInt 5);
                                 ("guild_id", VInt 42) ];
              next := 1%nat; dispatched := [] |} in
  Dict.get "uri" (heap w 0%nat) = Some (VInt 5)
  /\ exists w',
       SlashCommand.create_global_commands (py := Sample.builtins)
         (net := Sample.platform) 7 "secret" [0%nat] w
       = (Raise (AttributeError "object has no attribute 'format'"), w')
       /\ sent w' = []
       /\ heap w' 0%nat = [ ("name", VStr "ping"); ("guild_id", VInt 42) ].
Proof.
  intros w. split; [reflexivity|].
  destruct (create_global_commands_uri_not_a_string (py := Sample.builtins)
              (net := Sample.platform) 7 "secret" 0%nat [] (VInt 5) w eq_refl)
    as (w' & Hrun & Hsent & Hheap & _).
  - intros template. discriminate.
  - exists w'. split; [exact Hrun|]. split; [exact Hsent|exact Hheap].
Defined.

Lemma remove_set_eq (k : string) (v : pyval) (d : pydict) :
  Dict.remove k (Dict.set k v d) = Dict.remove k d.
Proof.
  induction d as [|[k' v'] d IH]; simpl.
  - rewrite String.eqb_refl. reflexivity.
  - destruct (String.eqb k k') eqn:E; simpl.
    + rewrite String.eqb_refl. reflexivity.
    + rewrite E, IH. reflexivity.
Qed.

Lemma remove_set_ne (k k' : string) (v : pyval) (d : pydict) :
  k <> k' -> Dict.get k' d = None ->
  Dict.remove k (Dict.set k' v d) = Dict.set k' v (Dict.remove k d).
Proof.
  intros Hne. apply String.eqb_neq in Hne.
  induction d as [|[k0 v0] d IH]; simpl; intros Habsent.
  - rewrite Hne. reflexivity.
  - destruct (String.eqb k' k0) eqn:E; [discriminate|].
    simpl. destruct (String.eqb k k0); simpl; rewrite ?E, IH by assumption;
      reflexivity.
Qed.

Lemma resolved_schema_has_no_scope_keys {py : PyBuiltins} (obj : command) :
  Dict.get "uri" (SlashCommand._resolve_options obj) = None
  /\ Dict.get "guild_id" (SlashCommand._resolve_options obj) = None.
Proof. destruct obj; split; reflexivity. Qed.

Lemma stripped_scoped_schema {py : PyBuiltins} (obj : command) (u g : pyval) :
  SlashCommand.stripped
    (Dict.set "uri" u (Dict.set "guild_id" g (SlashCommand._resolve_options obj)))
  = SlashCommand._resolve_options obj.
Proof.
  destruct (resolved_schema_has_no_scope_keys obj) as [Huri Hguild].
  unfold SlashCommand.stripped.
  rewrite remove_set_eq.
  rewrite remove_set_ne by (discriminate || exact Hguild).
  rewrite remove_set_eq.
  rewrite (remove_absent "uri") by exact Huri.
  apply remove_absent, Hguild.
Qed.

(** X22.  Registering a command that was added with a guild sends the very
    request that registering it without a guild sends: same address, same
    headers, and as body the translated schema, from which the guild has
    been popped.  The platform is told nothing about the guild. *)
Theorem guild_scope_leaves_no_trace
    {py : PyBuiltins} {dpy : Discord} {net : Platform}
    (bot : Bot.t) (excluded : list command) (obj : command) (guild : Guild)
    (client_id : Z) (token : string) (w : world) :
  let self := {| SlashCommandContainer.bot := bot;
                 SlashCommandContainer.excluded := excluded;
                 SlashCommandContainer._publish := [] |} in
  let requests (scope : option Guild) :=
    let '(added, w1) :=
      SlashCommandContainer.add_command self obj scope true [] w in
    match added with
    | Ok self' =>
        sent (snd (SlashCommand.create_global_commands client_id token
                     (SlashCommandContainer._publish self') w1))
    | Raise _ => []
    end in
  requests (Some guild) = requests None
  /\ requests (Some guild)
     = (sent w ++ [ {| method := "POST";
                       url := SlashCommand.registration_url client_id;
                       data := Some (dumps (VDict (SlashCommand._resolve_options obj)));
                       headers := SlashCommand.registration_headers token |} ])%list.
Proof.
  intros self requests.
  destruct (resolved_schema_has_no_scope_keys obj) as [Huri Hguild].
  assert (Hplain : SlashCommand.stripped (SlashCommand._resolve_options obj)
                   = SlashCommand._resolve_options obj).
  { unfold SlashCommand.stripped.
    rewrite (remove_absent "uri") by exact Huri.
    apply remove_absent, Hguild. }
  assert (Hrun : forall scope,
    requests scope
    = (sent w ++ [SlashCommand.registration_request client_id token
                    (SlashCommand._resolve_options obj)])%list).
  { intros scope. unfold requests.
    destruct (add_command_auto_run self obj scope [] w)
      as (self' & w1 & -> & Hpublish & Hheap & _ & _ & Hsent).
    rewrite Hpublish. cbn [SlashCommandContainer._publish self app].
    rewrite create_global_commands_step.
    2:{ rewrite Hheap. destruct scope; [right; apply get_set_eq|left; exact Huri]. }
    cbv zeta. rewrite Hsent.
    assert (Hreq : SlashCommand.registration_request client_id token
                     (heap w1 (next w))
                   = SlashCommand.registration_request client_id token
                       (SlashCommand._resolve_options obj)).
    { unfold SlashCommand.registration_request. rewrite Hheap.
      destruct scope; rewrite ?stripped_scoped_schema, ?Hplain; reflexivity. }
    rewrite Hreq.
    match goal with |- context [status ?a =? 200] =>
      destruct (status a =? 200) end; reflexivity. }
  split; [rewrite !Hrun; reflexivity|].
  rewrite Hrun. unfold SlashCommand.registration_request, to_json.
  rewrite Hplain. reflexivity.
Qed.

(** ** The two verifiers *)

(** X23.  On a request that carries both signature headers,
    [Router.verify_key] given the encoded body and
    [Interaction.verify_request] given the body accept the same requests:
    one answers [True] exactly when the other does. *)
Theorem verifiers_accept_the_same_requests {sodium : NaCl}
    (headers : list (string * string))
    (signature timestamp raw_body key : string) :
  Router.headers_get "X-Signature-Ed25519" headers = Some signature ->
  Router.headers_get "X-Signature-Timestamp" headers = Some timestamp ->
  Router.verify_key headers (encode raw_body) key = Ok true
  <-> Interaction.verify_request signature timestamp raw_body key = Ok true.
Proof.
  intros Hsig Hts. split.
  - intros Hrun.
    destruct (verify_key_true headers (encode raw_body) key Hrun)
      as (ts & sg & kb & vk & sb & m & Hts' & Hsg & Hk & Hvk & Hs & Hv).
    rewrite Hts in Hts'. injection Hts' as <-.
    rewrite Hsig in Hsg. injection Hsg as <-.
    unfold Interaction.verify_request. cbv zeta. rewrite encode_app.
    rewrite Hk. simpl. rewrite Hvk. simpl. rewrite Hs. simpl. rewrite Hv.
    reflexivity.
  - intros Hrun.
    destruct (verify_request_true signature timestamp raw_body key Hrun)
      as (kb & vk & sb & m & Hk & Hvk & Hs & Hv).
    unfold Router.verify_key. rewrite Hts, Hsig, Hk. simpl.
    rewrite Hvk. simpl. rewrite Hs. simpl. rewrite Hv. reflexivity.
Qed.

Lemma verifiers_accept_the_same_requests_witness :
  let headers := request_headers Sample.a_ping_request in
  let key := Router.public_key Sample.a_router in
  exists signature timestamp,
    Router.headers_get "X-Signature-Ed25519" headers = Some signature
    /\ Router.headers_get "X-Signature-Timestamp" headers = Some timestamp
    /\ Router.verify_key (sodium := Sample.nacl) headers
         (encode Sample.ping_text) key = Ok true
    /\ Interaction.verify_request (sodium := Sample.nacl) signature timestamp
         Sample.ping_text key = Ok true.
Proof.
  intros headers key.
  exists "00000000000000000000000000000000000000000000000000000000000000000000000000000000000000000000000000000000000000000000000000000000".
  exists "1604448000".
  assert (Hkey : Router.verify_key (sodium := Sample.nacl) headers
                   (encode Sample.ping_text) key = Ok true)
    by (vm_compute; reflexivity).
  split; [reflexivity|]. split; [reflexivity|]. split; [exact Hkey|].
  exact (proj1 (verifiers_accept_the_same_requests (sodium := Sample.nacl)
                  headers _ "1604448000" Sample.ping_text key
                  eq_refl eq_refl) Hkey).
Defined.


(** ** Lengths are counted in characters *)

Lemma str_len_cons_ascii (c : ascii) (s : string) :
  (match s with
   | String c' _ => is_continuation c' = false
   | EmptyString => True
   end) ->
  str_len (String c s) = S (str_len s).
Proof.
  unfold str_len. destruct s as [|c' s]; [reflexivity|].
  intros Hc. cbn [utf8_chars]. fold (utf8_chars (String c' s)).
  rewrite Hc. reflexivity.
Qed.

(** On text made of ASCII characters [len] is the number of bytes. *)
Lemma str_len_ascii (s : string) :
  Forall (fun c => (N_of_ascii c < 128)%N) (list_ascii_of_string s) ->
  str_len s = String.length s.
Proof.
  induction s as [|c s IH]; [reflexivity|].
  intros Hall. inversion Hall as [|? ? _ Hrest]; subst.
  rewrite str_len_cons_ascii.
  - simpl. rewrite IH by exact Hrest. reflexivity.
  - destruct s as [|c' s]; [exact I|].
    inversion Hrest as [|? ? Hc' _]; subst.
    unfold is_continuation.
    destruct (N.leb_spec 128 (N_of_ascii c')); [lia|reflexivity].
Qed.

(** A name of two accented letters has two characters and is refused; a
    name of seventeen, kept as thirty-four bytes, is accepted. *)
Example accented_names :
  str_len (Sample2.e_acute ++ Sample2.e_acute) = 2%nat
  /\ SlashCommand._validate_schema (py := Sample.builtins)
       [ ("name", VStr (Sample2.e_acute ++ Sample2.e_acute));
         ("description", VStr "ok"); ("options", VList []) ]
     = Raise (IndexError SlashCommand.name_message)
  /\ SlashCommand._validate_schema (py := Sample.builtins)
       [ ("name", VStr (Sample2.e_acute ++ Sample2.e_acute));
         ("description", VStr "ok") ]
     = Raise (IndexError SlashCommand.name_message)
  /\ String.length (Sample2.replicate_str 17 Sample2.e_acute) = 34%nat
  /\ SlashCommand._validate_schema (py := Sample.builtins)
       [ ("name", VStr (Sample2.replicate_str 17 Sample2.e_acute));
         ("description", VStr "ok"); ("options", VList []) ]
     = Ok true.
Proof. repeat split; vm_compute; reflexivity. Qed.
